(** * COSI CSI adapter, node client (pkg/node/client.go)

    A shallow embedding of the node-side client of the Container Object
    Storage Interface CSI adapter, and the properties of its volume-context
    parser, its chained resource lookups, its protocol extractor and its
    finalizer toggle.

    Conventions of the embedding.
    - A Go pointer to [T] is an [option T]; [None] is the nil pointer.
    - A Go [error] result is an [option error]; [None] is the nil error.
    - Remote calls go through the two client sets held by [NodeClient].  Their
      answers are not under the control of this code, so a client set is a
      record of transition functions over an arbitrary world [W].
    - Every remote call, every log line and every read of the volume context
      is appended to a trace, so that "is never attempted" is a statement
      about the trace of a run.
    - [context.Context] is only forwarded to the remote calls and is left
      out. *)

From Stdlib Require Import String Ascii List Bool.
From stdpp Require Import base option strings gmap.
Import ListNotations.

Local Open Scope string_scope.
Local Open Scope list_scope.

(** ** Strings *)

(** [contains needle hay]: [needle] occurs in [hay] (strings.Contains). *)
Fixpoint contains (needle hay : string) : bool :=
  String.prefix needle hay ||
  match hay with
  | EmptyString => false
  | String _ rest => contains needle rest
  end.

(** ** Errors *)

(** The Go errors this file builds or receives.  [StatusError] is an error
    answered by the resource store; it is opaque apart from its text and a
    "not found" reason. *)
Inductive error : Type :=
| Errorf (msg : string)                    (* fmt.Errorf, no wrapping verb *)
| Wrap (cause : error) (msg : string)      (* errors.Wrap(cause, msg) *)
| StatusError (notFound : bool) (msg : string).

(** [e.Error()] *)
Fixpoint Error (e : error) : string :=
  match e with
  | Errorf msg => msg
  | Wrap cause msg => msg +:+ ": " +:+ Error cause
  | StatusError _ msg => msg
  end.

(** ** API objects

    Only the fields that client.go reads or writes are kept. *)

Record ObjectMeta := {
  Name : string;
  Namespace : string;
  Finalizers : list string
}.

Module BucketAccessRequest.
Record spec := { BucketRequestName : string }.
Record status := { AccessGranted : bool; BucketAccessName : string }.
Record t := { Meta : ObjectMeta; Spec : spec; Status : status }.
End BucketAccessRequest.

Module BucketAccess.
Record spec := { BucketName : string; MintedSecretName : string }.
Record status := { AccessGranted : bool }.
Record t := { Meta : ObjectMeta; Spec : spec; Status : status }.
End BucketAccess.

Module BucketRequest.
Record status := { BucketAvailable : bool; BucketName : string }.
Record t := { Meta : ObjectMeta; Status : status }.
End BucketRequest.

(** The three connection structs are declared in the COSI API module; this
    code never reads their fields and only hands them to the JSON encoder,
    so each is kept as its list of named string fields. *)
Record S3Protocol := { s3_fields : list (string * string) }.
Record AzureProtocol := { azure_fields : list (string * string) }.
Record GCSProtocol := { gcs_fields : list (string * string) }.

Module Protocol.
Record t := {
  S3 : option S3Protocol;
  AzureBlob : option AzureProtocol;
  GCS : option GCSProtocol
}.
End Protocol.

Module Bucket.
Record spec := { Protocol : Protocol.t }.
Record status := { BucketAvailable : bool }.
Record t := { Meta : ObjectMeta; Spec : spec; Status : status }.
End Bucket.

Record Secret := {
  secret_meta : ObjectMeta;
  secret_data : list (string * string)
}.

(** The dynamic value of [var protocolConnection interface{}] in
    getProtocol: one of the three pointers (the nil interface is [None] of
    the option around it). *)
Inductive ProtocolConnection : Type :=
| ConnS3 (p : S3Protocol)
| ConnAzureBlob (p : AzureProtocol)
| ConnGCS (p : GCSProtocol).

(** ** Traces *)

Inductive severity := Info | ErrorLevel.

(** A Go result pair: a pointer to [T] and an [error]. *)
Definition result (T : Type) : Type := (option T * option error)%type.

Inductive event : Type :=
| Klog (sev : severity) (msg : string)
| MapIndex (key : string) (found : bool)         (* value, ok := volCtx[key] *)
| BucketAccessRequests_Get (ns name : string) (r : result BucketAccessRequest.t)
| BucketAccesses_Get (name : string) (r : result BucketAccess.t)
| BucketRequests_Get (ns name : string) (r : result BucketRequest.t)
| Buckets_Get (name : string) (r : result Bucket.t)
| Secrets_Get (ns name : string) (r : result Secret)
| BucketAccesses_Update (ba : BucketAccess.t) (r : result BucketAccess.t).

Definition is_access_grant_lookup (e : event) : bool :=
  match e with BucketAccesses_Get _ _ => true | _ => false end.
Definition is_bucket_request_lookup (e : event) : bool :=
  match e with BucketRequests_Get _ _ _ => true | _ => false end.
Definition is_bucket_lookup (e : event) : bool :=
  match e with Buckets_Get _ _ => true | _ => false end.
Definition is_secret_lookup (e : event) : bool :=
  match e with Secrets_Get _ _ _ => true | _ => false end.
Definition is_remote_call (e : event) : bool :=
  match e with Klog _ _ | MapIndex _ _ => false | _ => true end.

(** The remote calls of a trace, and the keys a trace reads, in order. *)
Definition remote_calls (tr : list event) : list event := List.filter is_remote_call tr.
Definition keys_read (tr : list event) : list string :=
  flat_map (fun e => match e with MapIndex k _ => [k] | _ => [] end) tr.

(** ** Client sets *)

(** cs.ObjectstorageV1alpha1Client: the methods client.go calls. *)
Record ObjectstorageV1alpha1Client (W : Type) := {
  cosi_BucketAccessRequests_Get : string -> string -> W -> result BucketAccessRequest.t * W;
  cosi_BucketAccesses_Get : string -> W -> result BucketAccess.t * W;
  cosi_BucketAccesses_Update : BucketAccess.t -> W -> result BucketAccess.t * W;
  cosi_BucketRequests_Get : string -> string -> W -> result BucketRequest.t * W;
  cosi_Buckets_Get : string -> W -> result Bucket.t * W
}.

(** kubernetes.Interface: the one method client.go calls,
    CoreV1().Secrets(ns).Get(name). *)
Record kubernetes_Interface (W : Type) := {
  kube_Secrets_Get : string -> string -> W -> result Secret * W
}.

Record NodeClient (W : Type) := {
  cosiClient : ObjectstorageV1alpha1Client W;
  kubeClient : kubernetes_Interface W
}.

Arguments cosi_BucketAccessRequests_Get {W}.
Arguments cosi_BucketAccesses_Get {W}.
Arguments cosi_BucketAccesses_Update {W}.
Arguments cosi_BucketRequests_Get {W}.
Arguments cosi_Buckets_Get {W}.
Arguments kube_Secrets_Get {W}.
Arguments cosiClient {W}.
Arguments kubeClient {W}.

(** ** The monad of a call: world, trace, and a possible panic *)

Record state (W : Type) := State { world : W; trace : list event }.
Arguments State {W}.
Arguments world {W}.
Arguments trace {W}.

Inductive outcome (A : Type) : Type :=
| Returns (a : A)
| Panics.                      (* nil pointer dereference *)
Arguments Returns {A}.
Arguments Panics {A}.

Definition M (W A : Type) : Type := state W -> outcome A * state W.

#[global] Instance M_ret {W} : MRet (M W) :=
  fun A (a : A) s => (Returns a, s).

#[global] Instance M_bind {W} : MBind (M W) :=
  fun A B (k : A -> M W B) (m : M W A) s =>
    match m s with
    | (Returns a, s') => k a s'
    | (Panics, s') => (Panics, s')
    end.

Definition emit {W} (e : event) : M W unit :=
  fun s => (Returns tt, State (world s) (trace s ++ [e])).

(** A remote call: step the world, record call and answer. *)
Definition remote {W R} (f : W -> R * W) (ev : R -> event) : M W R :=
  fun s => let '(r, w') := f (world s) in
           (Returns r, State w' (trace s ++ [ev r])).

(** [p.Field] on a pointer [p]. *)
Definition deref {W A} (p : option A) : M W A :=
  match p with
  | Some a => mret a
  | None => fun s => (Panics, s)
  end.

Definition klog_Info {W} (msg : string) : M W unit := emit (Klog Info msg).
Definition klog_Error {W} (e : error) : M W unit := emit (Klog ErrorLevel (Error e)).

(** ** What client.go takes from elsewhere *)

(** Library functions and the one helper of package node that client.go
    calls but does not define. *)
Class Externals := {
  (** fmt's verb %q on a string (strconv.Quote) *)
  Quote : string -> string;
  (** fmt's verb %+v on a v1alpha1.Protocol *)
  FormatProtocol : Protocol.t -> string;
  (** encoding/json.Marshal on the value of [protocolConnection] *)
  json_Marshal : option ProtocolConnection -> list Byte.byte * option error;
  (** getError(kind, name, err) of package node, defined outside client.go *)
  getError : string -> string -> error -> error
}.

Definition podNameKey : string := "csi.storage.k8s.io/pod.name".
Definition podNamespaceKey : string := "csi.storage.k8s.io/pod.namespace".
Definition barNameKey : string := "bar-name".
Definition barNamespaceKey : string := "bar-namespace".

(** The four keys in the order parseVolumeContext asks for them. *)
Definition requiredKeys : list string :=
  [barNameKey; barNamespaceKey; podNameKey; podNamespaceKey].

(** ** Finalizers (controller-runtime's controllerutil)

    Library code that addBAFinalizer and removeBAFinalizer call on the
    grant.  A finalizer slice is a [list string]; Go's nil slice and its
    empty slice are both the empty list. *)

(** The accessors of metav1.ObjectMeta. *)
Definition SetFinalizers (o : BucketAccess.t) (f : list string) : BucketAccess.t :=
  {| BucketAccess.Meta :=
       {| Name := Name (BucketAccess.Meta o);
          Namespace := Namespace (BucketAccess.Meta o);
          Finalizers := f |};
     BucketAccess.Spec := BucketAccess.Spec o;
     BucketAccess.Status := BucketAccess.Status o |}.

Definition GetFinalizers (o : BucketAccess.t) : list string :=
  Finalizers (BucketAccess.Meta o).

(** controllerutil.AddFinalizer: append the finalizer unless an equal one
    is already in the list. *)
Definition AddFinalizer (o : BucketAccess.t) (finalizer : string) : BucketAccess.t :=
  let f := GetFinalizers o in
  if existsb (fun e => String.eqb e finalizer) f then o
  else SetFinalizers o (f ++ [finalizer]).

(** The loop of controllerutil.RemoveFinalizer: every element equal to the
    finalizer is cut out of the slice, the others keep their order. *)
Fixpoint cutFinalizer (f : list string) (finalizer : string) : list string :=
  match f with
  | [] => []
  | e :: rest =>
      if String.eqb e finalizer then cutFinalizer rest finalizer
      else e :: cutFinalizer rest finalizer
  end.

Definition RemoveFinalizer (o : BucketAccess.t) (finalizer : string) : BucketAccess.t :=
  SetFinalizers o (cutFinalizer (GetFinalizers o) finalizer).

Section Client.
Context `{Externals} {W : Type}.

(** Modelled from the spec: logErr, a helper of package node defined
    outside client.go.  "Every failure is ... logged and returned upward":
    the error is written to the log and handed back unchanged. *)
Definition logErr (e : error) : M W error :=
  klog_Error e ;; mret e.

Definition parseValue (key : string) (volCtx : gmap string string)
  : M W (string * option error) :=
  let lookup := volCtx !! key in
  emit (MapIndex key (match lookup with Some _ => true | None => false end)) ;;
  match lookup with
  | None => mret ("", Some (Errorf ("required volume context key unset: " +:+ key)))
  | Some value => mret (value, None)
  end.

Definition parseVolumeContext (volCtx : gmap string string)
  : M W (string * string * string * string * option error) :=
  klog_Info "parsing bucketAccessRequest namespace/name from volume context" ;;
  '(barname, err) ← parseValue barNameKey volCtx;
  match err with Some _ => mret ("", "", "", "", err) | None =>
  '(barns, err) ← parseValue barNamespaceKey volCtx;
  match err with Some _ => mret ("", "", "", "", err) | None =>
  '(podname, err) ← parseValue podNameKey volCtx;
  match err with Some _ => mret ("", "", "", "", err) | None =>
  '(podns, err) ← parseValue podNamespaceKey volCtx;
  match err with Some _ => mret ("", "", "", "", err) | None =>
  mret (barname, barns, podname, podns, None)
  end end end end.

Definition getBAR (n : NodeClient W) (barName barNs : string)
  : M W (result BucketAccessRequest.t) :=
  klog_Info ("getting bucketAccessRequest " +:+ Quote (barNs +:+ "/" +:+ barName)) ;;
  '(bar, err) ← remote (cosi_BucketAccessRequests_Get (cosiClient n) barNs barName)
                       (BucketAccessRequests_Get barNs barName);
  match err with
  | Some e => mret (None, Some (Wrap e "get bucketAccessRequest failed"))
  | None =>
  match bar with
  | None =>
      mret (None, Some (Errorf ("bucketAccessRequest is nil "
                                +:+ Quote (barNs +:+ "/" +:+ barName))))
  | Some b =>
      if negb (BucketAccessRequest.AccessGranted (BucketAccessRequest.Status b)) then
        mret (None, Some (Errorf ("bucketAccessRequest does not grant access "
                                  +:+ Quote (barNs +:+ "/" +:+ barName))))
      else if Nat.eqb (String.length (BucketAccessRequest.BucketRequestName
                               (BucketAccessRequest.Spec b))) 0 then
        mret (None, Some (Errorf "bucketAccessRequest.Spec.BucketRequestName unset"))
      else if Nat.eqb (String.length (BucketAccessRequest.BucketAccessName
                               (BucketAccessRequest.Status b))) 0 then
        mret (None, Some (Errorf "bucketAccessRequest.Spec.BucketAccessName unset"))
      else mret (Some b, None)
  end end.

Definition getBA (n : NodeClient W) (baName : string) : M W (result BucketAccess.t) :=
  klog_Info ("getting bucketAccess " +:+ Quote baName) ;;
  '(ba, err) ← remote (cosi_BucketAccesses_Get (cosiClient n) baName)
                      (BucketAccesses_Get baName);
  match err with
  | Some e => e' ← logErr (getError "bucketAccess" baName e); mret (None, Some e')
  | None =>
  match ba with
  | None =>
      e' ← logErr (Errorf ("bucketAccess is nil " +:+ Quote baName));
      mret (None, Some e')
  | Some a =>
      if negb (BucketAccess.AccessGranted (BucketAccess.Status a)) then
        e' ← logErr (Errorf ("bucketAccess does not grant access " +:+ Quote baName));
        mret (None, Some e')
      else if Nat.eqb (String.length (BucketAccess.MintedSecretName (BucketAccess.Spec a))) 0 then
        e' ← logErr (Errorf "bucketAccess.Spec.MintedSecretName unset");
        mret (None, Some e')
      else mret (Some a, None)
  end end.

Definition getBR (n : NodeClient W) (brName brNs : string) : M W (result BucketRequest.t) :=
  klog_Info ("getting bucketRequest " +:+ Quote brName) ;;
  '(br, err) ← remote (cosi_BucketRequests_Get (cosiClient n) brNs brName)
                      (BucketRequests_Get brNs brName);
  match err with
  | Some e =>
      e' ← logErr (getError "bucketRequest" (brNs +:+ "/" +:+ brName) e);
      mret (None, Some e')
  | None =>
  match br with
  | None =>
      e' ← logErr (Errorf ("bucketRequest is nil " +:+ Quote (brNs +:+ "/" +:+ brName)));
      mret (None, Some e')
  | Some r =>
      if negb (BucketRequest.BucketAvailable (BucketRequest.Status r)) then
        e' ← logErr (Errorf ("bucketRequest is not available yet "
                             +:+ Quote (brNs +:+ "/" +:+ brName)));
        mret (None, Some e')
      else if Nat.eqb (String.length (BucketRequest.BucketName (BucketRequest.Status r))) 0 then
        e' ← logErr (Errorf "bucketRequest.Spec.BucketInstanceName unset");
        mret (None, Some e')
      else mret (Some r, None)
  end end.

Definition getB (n : NodeClient W) (bName : string) : M W (result Bucket.t) :=
  klog_Info ("getting bucket " +:+ Quote bName) ;;
  '(bkt, err) ← remote (cosi_Buckets_Get (cosiClient n) bName) (Buckets_Get bName);
  match err with
  | Some e => e' ← logErr (getError "bucket" bName e); mret (None, Some e')
  | None =>
  match bkt with
  | None =>
      e' ← logErr (Errorf ("bucket is nil " +:+ Quote bName));
      mret (None, Some e')
  | Some b =>
      if negb (Bucket.BucketAvailable (Bucket.Status b)) then
        e' ← logErr (Errorf ("bucket is not available yet " +:+ Quote bName));
        mret (None, Some e')
      else mret (Some b, None)
  end end.

(** The named results (bkt, ba, secret, err) start out nil; each bare
    [return] hands back whatever they hold at that point. *)
Definition GetResources (n : NodeClient W) (barName barNs : string)
  : M W (option Bucket.t * option BucketAccess.t * option Secret * option error) :=
  '(bar, err) ← getBAR n barName barNs;
  match err with Some _ => mret (None, None, None, err) | None =>
  bar_ ← deref bar;
  '(ba, err) ← getBA n (BucketAccessRequest.BucketAccessName (BucketAccessRequest.Status bar_));
  match err with Some _ => mret (None, ba, None, err) | None =>
  ba_ ← deref ba;
  '(bkt, err) ← getB n (BucketAccess.BucketName (BucketAccess.Spec ba_));
  match err with Some _ => mret (bkt, ba, None, err) | None =>
  '(secret, err) ← remote (kube_Secrets_Get (kubeClient n) barNs
                             (BucketAccess.MintedSecretName (BucketAccess.Spec ba_)))
                          (Secrets_Get barNs
                             (BucketAccess.MintedSecretName (BucketAccess.Spec ba_)));
  match err with
  | Some e =>
      logErr (getError "secret"
                (barNs +:+ "/" +:+ BucketAccess.MintedSecretName (BucketAccess.Spec ba_)) e) ;;
      mret (bkt, ba, secret, err)
  | None => mret (bkt, ba, secret, err)
  end end end end.

Definition getProtocol (n : NodeClient W) (bkt : option Bucket.t)
  : M W (list Byte.byte * option error) :=
  b ← deref bkt;
  let protocol := Bucket.Protocol (Bucket.Spec b) in
  klog_Info ("bucket protocol " +:+ FormatProtocol protocol) ;;
  let '(protocolConnection, err) :=
    match Protocol.S3 protocol with
    | Some s3 => (Some (ConnS3 s3), None)
    | None =>
    match Protocol.AzureBlob protocol with
    | Some azure => (Some (ConnAzureBlob azure), None)
    | None =>
    match Protocol.GCS protocol with
    | Some gcs => (Some (ConnGCS gcs), None)
    | None =>
        (None, Some (Errorf ("unrecognized protocol " +:+ FormatProtocol protocol
                             +:+ ", unable to extract connection data")))
    end end end in
  match err with
  | Some e => e' ← logErr e; mret ([], Some e')
  | None =>
      let '(data, err) := json_Marshal protocolConnection in
      match err with
      | Some e => e' ← logErr e; mret ([], Some e')
      | None => mret (data, None)
      end
  end.

(** The grant is passed by pointer and changed in place; the first
    component of the result is the grant the caller holds afterwards. *)
Definition addBAFinalizer (n : NodeClient W) (ba : BucketAccess.t) (BAFinalizer : string)
  : M W (BucketAccess.t * option error) :=
  let ba := AddFinalizer ba BAFinalizer in
  '(_, err) ← remote (cosi_BucketAccesses_Update (cosiClient n) ba)
                     (BucketAccesses_Update ba);
  mret (ba, err).

Definition removeBAFinalizer (n : NodeClient W) (ba : BucketAccess.t) (BAFinalizer : string)
  : M W (BucketAccess.t * option error) :=
  let ba := RemoveFinalizer ba BAFinalizer in
  '(_, err) ← remote (cosi_BucketAccesses_Update (cosiClient n) ba)
                     (BucketAccesses_Update ba);
  mret (ba, err).
End Client.

(** ** Concrete surroundings, for running the client

    A quoting function that agrees with strconv.Quote on printable ASCII, a
    small JSON encoder, a stand-in for getError, and an in-memory resource
    store in the manner of the generated fake client sets. *)

Definition dquote : string := String (ascii_of_nat 34) EmptyString.
Definition backslash : ascii := ascii_of_nat 92.

Fixpoint escape (s : string) : string :=
  match s with
  | EmptyString => EmptyString
  | String c rest =>
      if (Ascii.eqb c (ascii_of_nat 34) || Ascii.eqb c backslash)%bool
      then String backslash (String c (escape rest))
      else String c (escape rest)
  end.

Definition quoteASCII (s : string) : string := dquote +:+ escape s +:+ dquote.

Definition formatPointer {A} (p : option A) : string :=
  match p with Some _ => "0xc000010000" | None => "<nil>" end.

Definition formatProtocol (p : Protocol.t) : string :=
  "{S3:" +:+ formatPointer (Protocol.S3 p)
  +:+ " AzureBlob:" +:+ formatPointer (Protocol.AzureBlob p)
  +:+ " GCS:" +:+ formatPointer (Protocol.GCS p) +:+ "}".

Fixpoint encodeFields (fs : list (string * string)) : string :=
  match fs with
  | [] => ""
  | [(k, v)] => quoteASCII k +:+ ":" +:+ quoteASCII v
  | (k, v) :: rest => quoteASCII k +:+ ":" +:+ quoteASCII v +:+ "," +:+ encodeFields rest
  end.

Definition encodeJSON (c : option ProtocolConnection) : list Byte.byte * option error :=
  match c with
  | None => (list_byte_of_string "null", None)
  | Some (ConnS3 p) => (list_byte_of_string ("{" +:+ encodeFields (s3_fields p) +:+ "}"), None)
  | Some (ConnAzureBlob p) =>
      (list_byte_of_string ("{" +:+ encodeFields (azure_fields p) +:+ "}"), None)
  | Some (ConnGCS p) => (list_byte_of_string ("{" +:+ encodeFields (gcs_fields p) +:+ "}"), None)
  end.

Definition wrapGetError (kind name : string) (err : error) : error :=
  Wrap err ("failed to get " +:+ kind +:+ " " +:+ name).

Definition sampleExternals : Externals :=
  {| Quote := quoteASCII;
     FormatProtocol := formatProtocol;
     json_Marshal := encodeJSON;
     getError := wrapGetError |}.

(** The in-memory store. *)
Record cluster := {
  accessRequests : gmap (string * string) BucketAccessRequest.t;
  accesses : gmap string BucketAccess.t;
  bucketRequests : gmap (string * string) BucketRequest.t;
  buckets : gmap string Bucket.t;
  secrets : gmap (string * string) Secret
}.

Definition notFound (resource name : string) : error :=
  StatusError true (resource +:+ " " +:+ quoteASCII name +:+ " not found").

(** Get of a fake client set: the stored object, or nil and "not found". *)
Definition fakeGet {T} (found : option T) (resource name : string) (w : cluster)
  : result T * cluster :=
  match found with
  | Some o => ((Some o, None), w)
  | None => ((None, Some (notFound resource name)), w)
  end.

Definition fakeUpdate (ba : BucketAccess.t) (w : cluster) : result BucketAccess.t * cluster :=
  let name := Name (BucketAccess.Meta ba) in
  match accesses w !! name with
  | Some _ =>
      ((Some ba, None),
       {| accessRequests := accessRequests w;
          accesses := <[name := ba]> (accesses w);
          bucketRequests := bucketRequests w;
          buckets := buckets w;
          secrets := secrets w |})
  | None => ((None, Some (notFound "bucketaccesses" name)), w)
  end.

Definition fakeCosi : ObjectstorageV1alpha1Client cluster :=
  {| cosi_BucketAccessRequests_Get ns name w :=
       fakeGet (accessRequests w !! (ns, name)) "bucketaccessrequests" name w;
     cosi_BucketAccesses_Get name w :=
       fakeGet (accesses w !! name) "bucketaccesses" name w;
     cosi_BucketAccesses_Update := fakeUpdate;
     cosi_BucketRequests_Get ns name w :=
       fakeGet (bucketRequests w !! (ns, name)) "bucketrequests" name w;
     cosi_Buckets_Get name w :=
       fakeGet (buckets w !! name) "buckets" name w |}.

Definition fakeKube : kubernetes_Interface cluster :=
  {| kube_Secrets_Get ns name w := fakeGet (secrets w !! (ns, name)) "secrets" name w |}.

(** Get of a typed REST client: it allocates the result object before the
    request and returns that pointer whatever the outcome, so a failed Get
    answers an empty object together with the error. *)
Definition emptySecret : Secret :=
  {| secret_meta := {| Name := ""; Namespace := ""; Finalizers := [] |};
     secret_data := [] |}.

Definition restKube : kubernetes_Interface cluster :=
  {| kube_Secrets_Get ns name w :=
       match secrets w !! (ns, name) with
       | Some o => ((Some o, None), w)
       | None => ((Some emptySecret, Some (notFound "secrets" name)), w)
       end |}.

Definition fakeNode : NodeClient cluster :=
  {| cosiClient := fakeCosi; kubeClient := fakeKube |}.
Definition restNode : NodeClient cluster :=
  {| cosiClient := fakeCosi; kubeClient := restKube |}.

(** Sample objects: a granted access request "app/bar1" for the grant "ba1"
    on the bucket "bucket1", with the credentials in secret "app/creds". *)
Definition meta (ns name : string) (fin : list string) : ObjectMeta :=
  {| Name := name; Namespace := ns; Finalizers := fin |}.

Definition sampleBAR (granted : bool) (requestName : string) : BucketAccessRequest.t :=
  {| BucketAccessRequest.Meta := meta "app" "bar1" [];
     BucketAccessRequest.Spec := {| BucketAccessRequest.BucketRequestName := requestName |};
     BucketAccessRequest.Status :=
       {| BucketAccessRequest.AccessGranted := granted;
          BucketAccessRequest.BucketAccessName := "ba1" |} |}.

Definition sampleBA (granted : bool) (secretName : string) (fin : list string)
  : BucketAccess.t :=
  {| BucketAccess.Meta := meta "" "ba1" fin;
     BucketAccess.Spec :=
       {| BucketAccess.BucketName := "bucket1";
          BucketAccess.MintedSecretName := secretName |};
     BucketAccess.Status := {| BucketAccess.AccessGranted := granted |} |}.

Definition sampleS3 : S3Protocol :=
  {| s3_fields := [("endpoint", "s3.example.com"); ("bucketName", "b1"); ("region", "us-east-1")] |}.
Definition sampleAzure : AzureProtocol :=
  {| azure_fields := [("containerName", "c1"); ("storageAccount", "acct")] |}.
Definition sampleGCS : GCSProtocol :=
  {| gcs_fields := [("bucketName", "b1"); ("projectID", "p1")] |}.

Definition sampleBucket (available : bool) (p : Protocol.t) : Bucket.t :=
  {| Bucket.Meta := meta "" "bucket1" [];
     Bucket.Spec := {| Bucket.Protocol := p |};
     Bucket.Status := {| Bucket.BucketAvailable := available |} |}.

Definition onlyS3 : Protocol.t :=
  {| Protocol.S3 := Some sampleS3; Protocol.AzureBlob := None; Protocol.GCS := None |}.
Definition noProtocol : Protocol.t :=
  {| Protocol.S3 := None; Protocol.AzureBlob := None; Protocol.GCS := None |}.

Definition sampleSecret : Secret :=
  {| secret_meta := meta "app" "creds" [];
     secret_data := [("accessKey", "AKIA"); ("secretKey", "s3cr3t")] |}.

Definition sampleCluster (bar : BucketAccessRequest.t) (ba : BucketAccess.t)
    (bkt : Bucket.t) (withSecret : bool) : cluster :=
  {| accessRequests := {[ ("app", "bar1") := bar ]};
     accesses := {[ "ba1" := ba ]};
     bucketRequests := ∅;
     buckets := {[ "bucket1" := bkt ]};
     secrets := if withSecret then {[ ("app", "creds") := sampleSecret ]} else ∅ |}.

Definition healthyCluster : cluster :=
  sampleCluster (sampleBAR true "br1") (sampleBA true "creds" []) (sampleBucket true onlyS3) true.

(** The same cluster with one thing wrong at a time. *)
Definition ungrantedRequestCluster : cluster :=
  sampleCluster (sampleBAR false "br1") (sampleBA true "creds" []) (sampleBucket true onlyS3) true.
Definition requestNameUnsetCluster : cluster :=
  sampleCluster (sampleBAR true EmptyString) (sampleBA true "creds" [])
    (sampleBucket true onlyS3) true.
Definition ungrantedAccessCluster : cluster :=
  sampleCluster (sampleBAR true "br1") (sampleBA false "creds" []) (sampleBucket true onlyS3) true.
Definition unavailableBucketCluster : cluster :=
  sampleCluster (sampleBAR true "br1") (sampleBA true "creds" []) (sampleBucket false onlyS3) true.
Definition missingSecretCluster : cluster :=
  sampleCluster (sampleBAR true "br1") (sampleBA true "creds" []) (sampleBucket true onlyS3) false.

(** Protocols with more than one variant populated. *)
Definition allThree : Protocol.t :=
  {| Protocol.S3 := Some sampleS3;
     Protocol.AzureBlob := Some sampleAzure;
     Protocol.GCS := Some sampleGCS |}.
Definition azureAndGCS : Protocol.t :=
  {| Protocol.S3 := None;
     Protocol.AzureBlob := Some sampleAzure;
     Protocol.GCS := Some sampleGCS |}.
Definition onlyGCS : Protocol.t :=
  {| Protocol.S3 := None; Protocol.AzureBlob := None; Protocol.GCS := Some sampleGCS |}.
Definition onlyAzure : Protocol.t :=
  {| Protocol.S3 := None; Protocol.AzureBlob := Some sampleAzure; Protocol.GCS := None |}.

(** A healthy chain that ends in an Azure bucket. *)
Definition healthyAzureCluster : cluster :=
  sampleCluster (sampleBAR true "br1") (sampleBA true "creds" [])
    (sampleBucket true onlyAzure) true.

(** Volume contexts. *)
Definition podKeysMissing : gmap string string :=
  {[ barNameKey := "bar1"; barNamespaceKey := "app" ]}.
Definition allKeysEmpty : gmap string string :=
  {[ barNameKey := EmptyString; barNamespaceKey := EmptyString;
     podNameKey := EmptyString; podNamespaceKey := EmptyString ]}.

Definition start {W} (w : W) : state W := State w [].

(** ** Runs *)

(** A run starts in some world with an empty trace. *)
Definition run_result {W A} (m : M W A) (w : W) : outcome A := fst (m (start w)).
Definition run_trace {W A} (m : M W A) (w : W) : list event := trace (snd (m (start w))).

(** add then remove, on the grant the caller holds. *)
Definition addThenRemove `{Externals} {W} (n : NodeClient W) (ba : BucketAccess.t)
    (BAFinalizer : string) : M W (BucketAccess.t * option error) :=
  '(ba1, _) ← addBAFinalizer n ba BAFinalizer;
  removeBAFinalizer n ba1 BAFinalizer.

(** An error message names a resource when it holds the kind and the
    identifier as fmt's %q prints it. *)
Definition names `{Externals} (kind id : string) (e : error) : Prop :=
  contains kind (Error e) = true /\ contains (Quote id) (Error e) = true.

(** What getB accepts from the store. *)
Definition bucket_ready (r : result Bucket.t) : bool :=
  match r with
  | (Some b, None) => Bucket.BucketAvailable (Bucket.Status b)
  | _ => false
  end.

(** The four kinds of failure of a lookup, as a relation between what the
    store answered and what the lookup returned: a remote failure is turned
    into [remote_fail cause]; a nil object and an object that is not [ready]
    are reported by an error that names kind and identifier; an object with
    a required field unset is reported by the fixed message [unset] gives
    for it; any other object is returned. *)
Definition lookup_verdict `{Externals} {T} (kind id : string)
    (remote_fail : error -> error) (ready : T -> bool) (unset : T -> option string)
    (answer : result T) (out : outcome (result T)) : Prop :=
  match answer with
  | (_, Some cause) => out = Returns (None, Some (remote_fail cause))
  | (None, None) => exists e, out = Returns (None, Some e) /\ names kind id e
  | (Some o, None) =>
      if ready o then
        match unset o with
        | Some msg => out = Returns (None, Some (Errorf msg))
        | None => out = Returns (Some o, None)
        end
      else exists e, out = Returns (None, Some e) /\ names kind id e
  end.

Definition is_empty (s : string) : bool := Nat.eqb (String.length s) 0.

Definition unset_of_request (bar : BucketAccessRequest.t) : option string :=
  if is_empty (BucketAccessRequest.BucketRequestName (BucketAccessRequest.Spec bar))
  then Some "bucketAccessRequest.Spec.BucketRequestName unset"
  else if is_empty (BucketAccessRequest.BucketAccessName (BucketAccessRequest.Status bar))
  then Some "bucketAccessRequest.Spec.BucketAccessName unset"
  else None.

Definition unset_of_grant (ba : BucketAccess.t) : option string :=
  if is_empty (BucketAccess.MintedSecretName (BucketAccess.Spec ba))
  then Some "bucketAccess.Spec.MintedSecretName unset"
  else None.

Definition unset_of_bucket_request (br : BucketRequest.t) : option string :=
  if is_empty (BucketRequest.BucketName (BucketRequest.Status br))
  then Some "bucketRequest.Spec.BucketInstanceName unset"
  else None.

Definition is_update_call (e : event) : bool :=
  match e with BucketAccesses_Update _ _ => true | _ => false end.

(** A volume context with a key the parser does not ask for. *)
Definition withExtraKey : gmap string string :=
  <[ "storage.kubernetes.io/csiProvisionerIdentity" := "cosi" ]> podKeysMissing.

(** * Properties *)

Lemma length_zero_empty (s : string) : Nat.eqb (String.length s) 0 = true <-> s = "".
Proof.
  destruct s; simpl; split; intros Hs; try reflexivity; discriminate Hs.
Qed.

Lemma length_pos_nonempty (s : string) : Nat.eqb (String.length s) 0 = false <-> s <> "".
Proof.
  destruct s; simpl; split; intros Hs; try reflexivity; try discriminate; congruence.
Qed.

Ltac unfold_client :=
  unfold run_result, run_trace, start, addThenRemove, GetResources,
    addBAFinalizer, removeBAFinalizer, getProtocol, getBAR, getBA, getBR, getB,
    parseVolumeContext, parseValue, logErr, klog_Info, klog_Error, emit, remote,
    deref, mbind, M_bind, mret, M_ret in *;
  simpl in *.

Ltac case_step :=
  match goal with
  | |- context [let '(_, _) := ?x in _] => destruct x as [[? ?] ?] eqn:?
  | |- context [match ?x with Some _ => _ | None => _ end] => destruct x eqn:?
  | |- context [if ?b then _ else _] => destruct b eqn:?
  end; simpl in *.

(** Split a hypothesis "this event is in that (concrete) trace" into the
    positions it can be at. *)
Ltac trace_cases Hin :=
  simpl in Hin;
  repeat (destruct Hin as [Hin | Hin];
          [ try discriminate Hin; try (inversion Hin; subst; clear Hin) | ]);
  try contradiction Hin.

Ltac flags :=
  repeat match goal with
         | Hf : negb _ = false |- _ => apply negb_false_iff in Hf
         | Hf : negb _ = true |- _ => apply negb_true_iff in Hf
         | Hf : Nat.eqb (String.length _) 0 = true |- _ =>
             apply length_zero_empty in Hf
         | Hf : Nat.eqb (String.length _) 0 = false |- _ =>
             apply length_pos_nonempty in Hf
         end.

Section Properties.
Context `{Externals} {W : Type}.
Implicit Types (n : NodeClient W) (w : W).

(** C4. Whenever a run of GetResources fetches an access request whose
    approval flag is false, the run returns an error and its trace holds
    no access-grant lookup. *)
Theorem ungranted_request_stops_before_grant
    n barName barNs w ns name bar oerr :
  In (BucketAccessRequests_Get ns name (Some bar, oerr))
     (run_trace (GetResources n barName barNs) w) ->
  BucketAccessRequest.AccessGranted (BucketAccessRequest.Status bar) = false ->
  (exists e, run_result (GetResources n barName barNs) w
             = Returns (None, None, None, Some e))
  /\ List.filter is_access_grant_lookup
       (run_trace (GetResources n barName barNs) w) = [].
Proof.
  unfold_client. intros Hin Hflag. revert Hin.
  repeat case_step; intros Hin; trace_cases Hin; flags;
    solve [ congruence | split; [eexists; reflexivity | reflexivity] ].
Qed.

(** C5. Whenever a run of GetResources fetches an access grant whose
    approval flag is false or whose minted-secret name is empty, the run
    returns an error and its trace holds no bucket lookup. *)
Theorem unready_grant_stops_before_bucket
    n barName barNs w name ba oerr :
  In (BucketAccesses_Get name (Some ba, oerr))
     (run_trace (GetResources n barName barNs) w) ->
  BucketAccess.AccessGranted (BucketAccess.Status ba) = false
  \/ BucketAccess.MintedSecretName (BucketAccess.Spec ba) = "" ->
  (exists e, run_result (GetResources n barName barNs) w
             = Returns (None, None, None, Some e))
  /\ List.filter is_bucket_lookup
       (run_trace (GetResources n barName barNs) w) = [].
Proof.
  unfold_client. intros Hin Hflag. revert Hin.
  repeat case_step; intros Hin; trace_cases Hin; flags;
    solve [ destruct Hflag; congruence
          | split; [eexists; reflexivity | reflexivity] ].
Qed.

(** C6. Whenever a run of GetResources fetches a bucket whose availability
    flag is false, the run returns an error and its trace holds no secret
    lookup. *)
Theorem unavailable_bucket_stops_before_secret
    n barName barNs w name bkt oerr :
  In (Buckets_Get name (Some bkt, oerr))
     (run_trace (GetResources n barName barNs) w) ->
  Bucket.BucketAvailable (Bucket.Status bkt) = false ->
  (exists ba e, run_result (GetResources n barName barNs) w
                = Returns (None, ba, None, Some e))
  /\ List.filter is_secret_lookup
       (run_trace (GetResources n barName barNs) w) = [].
Proof.
  unfold_client. intros Hin Hflag. revert Hin.
  repeat case_step; intros Hin; trace_cases Hin; flags;
    solve [ congruence
          | split; [eexists; eexists; reflexivity | reflexivity] ].
Qed.

(** X1. GetResources never dereferences a nil pointer: each lookup that
    reports no error has returned an object, so every run returns. *)
Lemma GetResources_returns n barName barNs w :
  exists r, run_result (GetResources n barName barNs) w = Returns r.
Proof.
  unfold_client. repeat case_step; eexists; reflexivity.
Qed.

(** C1 (as amended). No run of GetResources performs a bucket-request
    lookup.  A run that succeeds has made exactly four remote calls, in
    this order: the access request by the caller's namespace and name, the
    access grant named by the request's status, the bucket named by the
    grant's spec, and the secret named by the grant's spec in the caller's
    namespace; it returns the bucket, the grant and the secret so
    fetched.  And the chain is resolved whenever it can be: if the store
    answers a granted access request with both reference fields set, then
    under that request's grant name an approved grant that names a secret,
    then under that grant's bucket name an available bucket (with whatever
    protocol), then the secret without an error, GetResources returns that
    bucket, that grant and that secret with a nil error. *)
Theorem GetResources_chain n barName barNs w :
  List.filter is_bucket_request_lookup
    (run_trace (GetResources n barName barNs) w) = []
  /\ (forall bkt ba secret,
      run_result (GetResources n barName barNs) w
      = Returns (bkt, ba, secret, None) ->
      exists bar ba_ bkt_,
        ba = Some ba_ /\ bkt = Some bkt_
        /\ remote_calls (run_trace (GetResources n barName barNs) w)
           = [ BucketAccessRequests_Get barNs barName (Some bar, None);
               BucketAccesses_Get
                 (BucketAccessRequest.BucketAccessName (BucketAccessRequest.Status bar))
                 (Some ba_, None);
               Buckets_Get (BucketAccess.BucketName (BucketAccess.Spec ba_))
                 (Some bkt_, None);
               Secrets_Get barNs (BucketAccess.MintedSecretName (BucketAccess.Spec ba_))
                 (secret, None) ])
  /\ (forall bar ba bkt secret w1 w2 w3 w4,
      cosi_BucketAccessRequests_Get (cosiClient n) barNs barName w
      = ((Some bar, None), w1) ->
      BucketAccessRequest.AccessGranted (BucketAccessRequest.Status bar) = true ->
      BucketAccessRequest.BucketRequestName (BucketAccessRequest.Spec bar) <> EmptyString ->
      BucketAccessRequest.BucketAccessName (BucketAccessRequest.Status bar) <> EmptyString ->
      cosi_BucketAccesses_Get (cosiClient n)
        (BucketAccessRequest.BucketAccessName (BucketAccessRequest.Status bar)) w1
      = ((Some ba, None), w2) ->
      BucketAccess.AccessGranted (BucketAccess.Status ba) = true ->
      BucketAccess.MintedSecretName (BucketAccess.Spec ba) <> EmptyString ->
      cosi_Buckets_Get (cosiClient n) (BucketAccess.BucketName (BucketAccess.Spec ba)) w2
      = ((Some bkt, None), w3) ->
      Bucket.BucketAvailable (Bucket.Status bkt) = true ->
      kube_Secrets_Get (kubeClient n) barNs
        (BucketAccess.MintedSecretName (BucketAccess.Spec ba)) w3
      = ((secret, None), w4) ->
      run_result (GetResources n barName barNs) w
      = Returns (Some bkt, Some ba, secret, None)
      /\ world (snd (GetResources n barName barNs (start w))) = w4).
Proof.
  split; [| split].
  - unfold_client. repeat case_step; reflexivity.
  - intros bkt ba secret. unfold_client.
    repeat case_step; intros Hret; try discriminate Hret.
    inversion Hret; subst. eexists _, _, _. repeat split; reflexivity.
  - intros bar ba bkt secret w1 w2 w3 w4
      Hbar Hgranted Hrequest Hgrant Hba Happroved Hsecret Hbkt Havailable Hget.
    apply length_pos_nonempty in Hrequest, Hgrant, Hsecret.
    unfold_client.
    rewrite Hbar; simpl. rewrite Hgranted, Hrequest, Hgrant; simpl.
    rewrite Hba; simpl. rewrite Happroved, Hsecret; simpl.
    rewrite Hbkt; simpl. rewrite Havailable; simpl.
    rewrite Hget; simpl. split; reflexivity.
Qed.

(** C10 (as amended). When the bucket lookup fails, GetResources returns
    the grant fetched before, a nil bucket, a nil secret and the error.
    When the secret lookup fails, it returns the grant and the bucket
    fetched before, the error of the secret store unchanged, and as secret
    whatever pointer the secret store answered next to that error. *)
Theorem GetResources_partial_results n barName barNs w :
  (forall name r,
      In (Buckets_Get name r) (run_trace (GetResources n barName barNs) w) ->
      bucket_ready r = false ->
      exists ba e baName,
        run_result (GetResources n barName barNs) w
        = Returns (None, Some ba, None, Some e)
        /\ In (BucketAccesses_Get baName (Some ba, None))
              (run_trace (GetResources n barName barNs) w))
  /\ (forall ns name s c,
      In (Secrets_Get ns name (s, Some c))
         (run_trace (GetResources n barName barNs) w) ->
      exists bkt ba bName baName,
        run_result (GetResources n barName barNs) w
        = Returns (Some bkt, Some ba, s, Some c)
        /\ In (BucketAccesses_Get baName (Some ba, None))
              (run_trace (GetResources n barName barNs) w)
        /\ In (Buckets_Get bName (Some bkt, None))
              (run_trace (GetResources n barName barNs) w)).
Proof.
  split.
  - intros name r. unfold_client.
    repeat case_step; intros Hin Hready; trace_cases Hin; flags;
      try (simpl in Hready; congruence);
      eexists _, _, _; (split; [reflexivity | simpl; tauto]).
  - intros ns name s c. unfold_client.
    repeat case_step; intros Hin; trace_cases Hin;
      eexists _, _, _, _; (split; [reflexivity | simpl; tauto]).
Qed.

(** C2. getProtocol looks at the variants in the order S3, AzureBlob, GCS
    and hands the first populated one to the JSON encoder, returning the
    bytes the encoder produced: S3 when it is populated, whatever the other
    two hold; AzureBlob when S3 is not populated, whatever GCS holds; GCS
    when it alone is populated.  With no variant populated it returns an
    "unrecognized protocol" error and no data. *)
Theorem getProtocol_first_populated_wins n (bkt : Bucket.t) w :
  let protocol := Bucket.Protocol (Bucket.Spec bkt) in
  (forall s3 data,
      Protocol.S3 protocol = Some s3 ->
      json_Marshal (Some (ConnS3 s3)) = (data, None) ->
      run_result (getProtocol n (Some bkt)) w = Returns (data, None))
  /\ (forall azure data,
      Protocol.S3 protocol = None ->
      Protocol.AzureBlob protocol = Some azure ->
      json_Marshal (Some (ConnAzureBlob azure)) = (data, None) ->
      run_result (getProtocol n (Some bkt)) w = Returns (data, None))
  /\ (forall gcs data,
      Protocol.S3 protocol = None ->
      Protocol.AzureBlob protocol = None ->
      Protocol.GCS protocol = Some gcs ->
      json_Marshal (Some (ConnGCS gcs)) = (data, None) ->
      run_result (getProtocol n (Some bkt)) w = Returns (data, None))
  /\ (Protocol.S3 protocol = None ->
      Protocol.AzureBlob protocol = None ->
      Protocol.GCS protocol = None ->
      run_result (getProtocol n (Some bkt)) w
      = Returns ([], Some (Errorf ("unrecognized protocol " +:+ FormatProtocol protocol
                                   +:+ ", unable to extract connection data")))).
Proof.
  intros protocol. subst protocol. unfold_client. repeat split.
  - intros s3 data Hs3 Hm. rewrite Hs3; simpl. now rewrite Hm.
  - intros azure data Hs3 Haz Hm. rewrite Hs3, Haz; simpl. now rewrite Hm.
  - intros gcs data Hs3 Haz Hgcs Hm. rewrite Hs3, Haz, Hgcs; simpl. now rewrite Hm.
  - intros Hs3 Haz Hgcs. rewrite Hs3, Haz, Hgcs. reflexivity.
Qed.

(** C3. When the volume context lacks at least one required key,
    parseVolumeContext fails with the error naming the first absent key in
    the order bar-name, bar-namespace, pod name, pod namespace, returns four
    empty strings, and has read the keys up to that one and none after
    it. *)
Theorem parseVolumeContext_first_missing (volCtx : gmap string string) w :
  (exists k, In k requiredKeys /\ volCtx !! k = None) ->
  exists pre k post,
    requiredKeys = pre ++ k :: post
    /\ (forall k', In k' pre -> is_Some (volCtx !! k'))
    /\ volCtx !! k = None
    /\ run_result (parseVolumeContext volCtx) w
       = Returns ("", "", "", "",
                  Some (Errorf ("required volume context key unset: " +:+ k)))
    /\ keys_read (run_trace (parseVolumeContext volCtx) w) = pre ++ [k].
Proof.
  intros (k0 & Hk0 & Hnone).
  destruct (volCtx !! barNameKey) as [v1|] eqn:E1.
  2: { exists [], barNameKey, [barNamespaceKey; podNameKey; podNamespaceKey].
       unfold_client. rewrite E1. simpl. repeat split; try reflexivity.
       intros k' []. }
  destruct (volCtx !! barNamespaceKey) as [v2|] eqn:E2.
  2: { exists [barNameKey], barNamespaceKey, [podNameKey; podNamespaceKey].
       unfold_client. rewrite E1; simpl. rewrite E2; simpl.
       repeat split; try reflexivity.
       intros k' [<- | []]; rewrite E1; eauto. }
  destruct (volCtx !! podNameKey) as [v3|] eqn:E3.
  2: { exists [barNameKey; barNamespaceKey], podNameKey, [podNamespaceKey].
       unfold_client. rewrite E1; simpl. rewrite E2; simpl. rewrite E3; simpl.
       repeat split; try reflexivity.
       intros k' [<- | [<- | []]]; [rewrite E1 | rewrite E2]; eauto. }
  destruct (volCtx !! podNamespaceKey) as [v4|] eqn:E4.
  2: { exists [barNameKey; barNamespaceKey; podNameKey], podNamespaceKey, [].
       unfold_client. rewrite E1; simpl. rewrite E2; simpl. rewrite E3; simpl.
       rewrite E4; simpl. repeat split; try reflexivity.
       intros k' [<- | [<- | [<- | []]]];
         [rewrite E1 | rewrite E2 | rewrite E3]; eauto. }
  exfalso. destruct Hk0 as [<- | [<- | [<- | [<- | []]]]]; congruence.
Qed.

(** C9. parseVolumeContext returns a nil error exactly when all four
    required keys are present; the strings it then returns are the values
    stored under the keys, whatever they are.  In particular a context that
    maps every required key to the empty string parses successfully to four
    empty strings. *)
Theorem parseVolumeContext_succeeds_iff_keys_present
    (volCtx : gmap string string) w :
  ((forall k, In k requiredKeys -> is_Some (volCtx !! k))
   <-> exists barname barns podname podns,
         run_result (parseVolumeContext volCtx) w
         = Returns (barname, barns, podname, podns, None))
  /\ (forall barname barns podname podns,
        run_result (parseVolumeContext volCtx) w
        = Returns (barname, barns, podname, podns, None) ->
        volCtx !! barNameKey = Some barname
        /\ volCtx !! barNamespaceKey = Some barns
        /\ volCtx !! podNameKey = Some podname
        /\ volCtx !! podNamespaceKey = Some podns)
  /\ ((forall k, In k requiredKeys -> volCtx !! k = Some "") ->
      run_result (parseVolumeContext volCtx) w = Returns ("", "", "", "", None)).
Proof.
  assert (Hrun : forall barname barns podname podns,
             run_result (parseVolumeContext volCtx) w
             = Returns (barname, barns, podname, podns, None)
             <-> volCtx !! barNameKey = Some barname
                 /\ volCtx !! barNamespaceKey = Some barns
                 /\ volCtx !! podNameKey = Some podname
                 /\ volCtx !! podNamespaceKey = Some podns).
  { intros a b c d.
    destruct (volCtx !! barNameKey) as [v1|] eqn:E1;
      [ destruct (volCtx !! barNamespaceKey) as [v2|] eqn:E2;
        [ destruct (volCtx !! podNameKey) as [v3|] eqn:E3;
          [ destruct (volCtx !! podNamespaceKey) as [v4|] eqn:E4 | ] | ] | ];
      unfold_client;
      repeat (first [rewrite E1 | rewrite E2 | rewrite E3 | rewrite E4]; simpl);
      split; intros Hr; try discriminate Hr;
      try (destruct Hr as (? & ? & ? & ?); congruence).
    inversion Hr; subst; auto. }
  split; [split | split].
  - intros Hall.
    destruct (Hall barNameKey) as [a Ha]; [simpl; tauto|].
    destruct (Hall barNamespaceKey) as [b Hb]; [simpl; tauto|].
    destruct (Hall podNameKey) as [c Hc]; [simpl; tauto|].
    destruct (Hall podNamespaceKey) as [d Hd]; [simpl; tauto|].
    exists a, b, c, d. apply Hrun; auto.
  - intros (a & b & c & d & Hr). apply Hrun in Hr.
    destruct Hr as (Ha & Hb & Hc & Hd).
    intros k [<- | [<- | [<- | [<- | []]]]]; eauto.
  - intros a b c d Hr. apply Hrun, Hr.
  - intros Hall. apply Hrun. repeat split; apply Hall; simpl; tauto.
Qed.

(** *** Finalizers *)

Lemma existsb_eqb_In (f : list string) (m : string) :
  existsb (fun e => String.eqb e m) f = true <-> In m f.
Proof.
  rewrite existsb_exists. split.
  - intros (e & He & Heq). apply String.eqb_eq in Heq. now subst.
  - intros Hm. exists m. split; [assumption | apply String.eqb_refl].
Qed.

Lemma AddFinalizer_present (ba : BucketAccess.t) (m : string) :
  In m (GetFinalizers ba) -> AddFinalizer ba m = ba.
Proof.
  intros Hm. unfold AddFinalizer.
  apply existsb_eqb_In in Hm. now rewrite Hm.
Qed.

Lemma cutFinalizer_gone (f : list string) (m : string) :
  ~ In m (cutFinalizer f m).
Proof.
  induction f as [|e f IH]; simpl; [tauto|].
  destruct (String.eqb e m) eqn:Heq; [assumption|].
  apply String.eqb_neq in Heq. simpl. tauto.
Qed.

Lemma cutFinalizer_absent (f : list string) (m : string) :
  ~ In m f -> cutFinalizer f m = f.
Proof.
  induction f as [|e f IH]; simpl; intros Hout; [reflexivity|].
  destruct (String.eqb e m) eqn:Heq.
  - apply String.eqb_eq in Heq. tauto.
  - f_equal. apply IH. tauto.
Qed.

Lemma cutFinalizer_appended (f : list string) (m : string) :
  cutFinalizer (f ++ [m]) m = cutFinalizer f m.
Proof.
  induction f as [|e f IH]; simpl.
  - now rewrite String.eqb_refl.
  - destruct (String.eqb e m); now rewrite IH.
Qed.

Lemma RemoveFinalizer_AddFinalizer (ba : BucketAccess.t) (m : string) :
  GetFinalizers (RemoveFinalizer (AddFinalizer ba m) m)
  = cutFinalizer (GetFinalizers ba) m.
Proof.
  unfold RemoveFinalizer, AddFinalizer.
  destruct (existsb _ (GetFinalizers ba)); [reflexivity|].
  unfold GetFinalizers at 1 2. simpl. apply cutFinalizer_appended.
Qed.

(** C7 (as amended). Adding and then removing a marker leaves the grant
    with its original finalizer list from which every occurrence of the
    marker is cut; when the marker was not in the original list, that is
    the original list.  This holds whatever the two update calls answer. *)
Theorem add_then_remove_finalizer n (ba : BucketAccess.t) (marker : string) w :
  exists ba2 err,
    run_result (addThenRemove n ba marker) w = Returns (ba2, err)
    /\ GetFinalizers ba2 = cutFinalizer (GetFinalizers ba) marker
    /\ (~ In marker (GetFinalizers ba) -> GetFinalizers ba2 = GetFinalizers ba)
    /\ (In marker (GetFinalizers ba) -> ~ In marker (GetFinalizers ba2)).
Proof.
  unfold_client.
  destruct (cosi_BucketAccesses_Update (cosiClient n) (AddFinalizer ba marker) w)
    as [[r1 e1] w1]; simpl.
  destruct (cosi_BucketAccesses_Update (cosiClient n)
              (RemoveFinalizer (AddFinalizer ba marker) marker) w1)
    as [[r2 e2] w2]; simpl.
  eexists _, _. split; [reflexivity|].
  rewrite RemoveFinalizer_AddFinalizer. split; [reflexivity|]. split.
  - apply cutFinalizer_absent.
  - intros _. apply cutFinalizer_gone.
Qed.

(** *** Error messages *)

Lemma append_cons (c : ascii) (a b : string) :
  String c a +:+ b = String c (a +:+ b).
Proof. reflexivity. Qed.

Lemma append_empty (a : string) : a +:+ EmptyString = a.
Proof.
  induction a as [|c a IH]; [reflexivity|].
  now rewrite append_cons, IH.
Qed.

Lemma prefix_same (a b : string) : String.prefix a (a +:+ b) = true.
Proof.
  induction a as [|c a IH].
  - now destruct b.
  - rewrite append_cons. simpl.
    destruct (ascii_dec c c); [assumption | congruence].
Qed.

Lemma contains_prefix (a s : string) :
  String.prefix a s = true -> contains a s = true.
Proof. intros Hp. destruct s; cbn [contains]; now rewrite Hp. Qed.

Lemma contains_head (a b : string) : contains a (a +:+ b) = true.
Proof. apply contains_prefix, prefix_same. Qed.

Lemma contains_tail (a b : string) : contains b (a +:+ b) = true.
Proof.
  induction a as [|c a IH].
  - change (EmptyString +:+ b) with b. rewrite <- (append_empty b) at 2.
    apply contains_head.
  - rewrite append_cons. cbn [contains]. rewrite IH. apply orb_true_r.
Qed.


Lemma prefix_append (a b c : string) :
  String.prefix a b = true -> String.prefix a (b +:+ c) = true.
Proof.
  revert b. induction a as [|x a IH]; intros b Hp.
  - now destruct (b +:+ c).
  - destruct b as [|y b]; [discriminate Hp|].
    rewrite append_cons. simpl in *.
    destruct (ascii_dec x y); [now apply IH | discriminate Hp].
Qed.

(** A message that starts with the kind and ends with the quoted
    identifier names the resource. *)
Lemma names_quoted (kind text id : string) :
  String.prefix kind text = true ->
  names kind id (Errorf (text +:+ Quote id)).
Proof.
  intros Hp. split; simpl.
  - now apply contains_prefix, prefix_append.
  - apply contains_tail.
Qed.

Ltac verdict :=
  unfold lookup_verdict, unset_of_request, unset_of_grant,
    unset_of_bucket_request, is_empty;
  unfold_client;
  repeat case_step;
  simplify_eq;
  try reflexivity;
  try (eexists; split; [reflexivity | apply names_quoted; reflexivity]).

(** C8 (as amended). What each lookup returns for each answer of the
    store.  A nil object and an object whose readiness flag is false are
    reported by an error whose message names the resource kind and the
    quoted identifier (namespace/name for the access request and the
    bucket request, the name for the grant and the bucket).  An unset
    required field is reported by a fixed message that names the kind and
    the field and no identifier.  A failed remote call is reported as
    errors.Wrap(cause, "get bucketAccessRequest failed") by getBAR and as
    getError(kind, identifier, cause) by getBA, getBR and getB.  A failed
    secret lookup makes GetResources return the error of the secret store
    as it came. *)
Theorem lookup_errors n w :
  (forall barName barNs,
      lookup_verdict "bucketAccessRequest" (barNs +:+ "/" +:+ barName)
        (fun cause => Wrap cause "get bucketAccessRequest failed")
        (fun bar => BucketAccessRequest.AccessGranted (BucketAccessRequest.Status bar))
        unset_of_request
        (fst (cosi_BucketAccessRequests_Get (cosiClient n) barNs barName w))
        (run_result (getBAR n barName barNs) w))
  /\ (forall baName,
      lookup_verdict "bucketAccess" baName
        (getError "bucketAccess" baName)
        (fun ba => BucketAccess.AccessGranted (BucketAccess.Status ba))
        unset_of_grant
        (fst (cosi_BucketAccesses_Get (cosiClient n) baName w))
        (run_result (getBA n baName) w))
  /\ (forall brName brNs,
      lookup_verdict "bucketRequest" (brNs +:+ "/" +:+ brName)
        (getError "bucketRequest" (brNs +:+ "/" +:+ brName))
        (fun br => BucketRequest.BucketAvailable (BucketRequest.Status br))
        unset_of_bucket_request
        (fst (cosi_BucketRequests_Get (cosiClient n) brNs brName w))
        (run_result (getBR n brName brNs) w))
  /\ (forall bName,
      lookup_verdict "bucket" bName
        (getError "bucket" bName)
        (fun bkt => Bucket.BucketAvailable (Bucket.Status bkt))
        (fun _ => None)
        (fst (cosi_Buckets_Get (cosiClient n) bName w))
        (run_result (getB n bName) w))
  /\ (forall barName barNs ns name s cause,
      In (Secrets_Get ns name (s, Some cause))
         (run_trace (GetResources n barName barNs) w) ->
      exists bkt ba,
        run_result (GetResources n barName barNs) w
        = Returns (bkt, ba, s, Some cause)).
Proof.
  repeat split.
  - intros barName barNs. verdict.
  - intros baName. verdict.
  - intros brName brNs. verdict.
  - intros bName. verdict.
  - intros barName barNs ns name s cause. unfold_client.
    repeat case_step; intros Hin; trace_cases Hin;
      eexists _, _; reflexivity.
Qed.
End Properties.

(** * The properties at work on the sample cluster *)

Lemma ungranted_request_witness :
  (exists e, run_result (@GetResources sampleExternals _ fakeNode "bar1" "app")
               ungrantedRequestCluster
             = Returns (None, None, None, Some e))
  /\ List.filter is_access_grant_lookup
       (run_trace (@GetResources sampleExternals _ fakeNode "bar1" "app")
          ungrantedRequestCluster) = [].
Proof.
  apply (@ungranted_request_stops_before_grant sampleExternals cluster fakeNode
           "bar1" "app" ungrantedRequestCluster "app" "bar1"
           (sampleBAR false "br1") None).
  - vm_compute. right; left; reflexivity.
  - reflexivity.
Defined.

Lemma unready_grant_witness :
  (exists e, run_result (@GetResources sampleExternals _ fakeNode "bar1" "app")
               ungrantedAccessCluster
             = Returns (None, None, None, Some e))
  /\ List.filter is_bucket_lookup
       (run_trace (@GetResources sampleExternals _ fakeNode "bar1" "app")
          ungrantedAccessCluster) = [].
Proof.
  apply (@unready_grant_stops_before_bucket sampleExternals cluster fakeNode
           "bar1" "app" ungrantedAccessCluster "ba1"
           (sampleBA false "creds" []) None).
  - vm_compute. do 3 right; left; reflexivity.
  - left; reflexivity.
Defined.

Lemma unavailable_bucket_witness :
  (exists ba e, run_result (@GetResources sampleExternals _ fakeNode "bar1" "app")
                  unavailableBucketCluster
                = Returns (None, ba, None, Some e))
  /\ List.filter is_secret_lookup
       (run_trace (@GetResources sampleExternals _ fakeNode "bar1" "app")
          unavailableBucketCluster) = [].
Proof.
  apply (@unavailable_bucket_stops_before_secret sampleExternals cluster fakeNode
           "bar1" "app" unavailableBucketCluster "bucket1"
           (sampleBucket false onlyS3) None).
  - vm_compute. do 5 right; left; reflexivity.
  - reflexivity.
Defined.

Lemma GetResources_chain_witness :
  (exists bar ba_ bkt_,
      Some (sampleBA true "creds" []) = Some ba_
      /\ Some (sampleBucket true onlyS3) = Some bkt_
      /\ remote_calls (run_trace (@GetResources sampleExternals _ fakeNode "bar1" "app")
                         healthyCluster)
         = [ BucketAccessRequests_Get "app" "bar1" (Some bar, None);
             BucketAccesses_Get
               (BucketAccessRequest.BucketAccessName (BucketAccessRequest.Status bar))
               (Some ba_, None);
             Buckets_Get (BucketAccess.BucketName (BucketAccess.Spec ba_)) (Some bkt_, None);
             Secrets_Get "app" (BucketAccess.MintedSecretName (BucketAccess.Spec ba_))
               (Some sampleSecret, None) ])
  /\ (run_result (@GetResources sampleExternals _ fakeNode "bar1" "app") healthyAzureCluster
      = Returns (Some (sampleBucket true onlyAzure), Some (sampleBA true "creds" []),
                 Some sampleSecret, None)
      /\ world (snd (@GetResources sampleExternals _ fakeNode "bar1" "app"
                       (start healthyAzureCluster)))
         = healthyAzureCluster).
Proof.
  split.
  - apply (proj1 (proj2 (@GetResources_chain sampleExternals cluster fakeNode "bar1" "app"
                           healthyCluster))).
    vm_compute. reflexivity.
  - apply (proj2 (proj2 (@GetResources_chain sampleExternals cluster fakeNode "bar1" "app"
                           healthyAzureCluster))
             (sampleBAR true "br1") (sampleBA true "creds" [])
             (sampleBucket true onlyAzure) (Some sampleSecret)
             healthyAzureCluster healthyAzureCluster healthyAzureCluster
             healthyAzureCluster);
      first [ reflexivity | discriminate ].
Defined.

(** C1, as stated, fails: a run on the healthy cluster succeeds, looks up
    three custom resources and the secret, and no bucket request. *)
Lemma healthy_run_has_no_bucket_request_lookup :
  run_result (@GetResources sampleExternals _ fakeNode "bar1" "app") healthyCluster
  = Returns (Some (sampleBucket true onlyS3), Some (sampleBA true "creds" []),
             Some sampleSecret, None)
  /\ length (remote_calls
               (run_trace (@GetResources sampleExternals _ fakeNode "bar1" "app")
                  healthyCluster)) = 4
  /\ ~ exists ev,
        In ev (run_trace (@GetResources sampleExternals _ fakeNode "bar1" "app")
                 healthyCluster)
        /\ is_bucket_request_lookup ev = true.
Proof.
  split; [vm_compute; reflexivity|]. split; [vm_compute; reflexivity|].
  intros (ev & Hin & Hev). vm_compute in Hin.
  repeat (destruct Hin as [<- | Hin]; [discriminate Hev|]).
  exact Hin.
Qed.

Lemma GetResources_partial_results_witness :
  (exists ba e baName,
      run_result (@GetResources sampleExternals _ fakeNode "bar1" "app")
        unavailableBucketCluster
      = Returns (None, Some ba, None, Some e)
      /\ In (BucketAccesses_Get baName (Some ba, None))
            (run_trace (@GetResources sampleExternals _ fakeNode "bar1" "app")
               unavailableBucketCluster))
  /\ (exists bkt ba bName baName,
      run_result (@GetResources sampleExternals _ fakeNode "bar1" "app")
        missingSecretCluster
      = Returns (Some bkt, Some ba, None, Some (notFound "secrets" "creds"))
      /\ In (BucketAccesses_Get baName (Some ba, None))
            (run_trace (@GetResources sampleExternals _ fakeNode "bar1" "app")
               missingSecretCluster)
      /\ In (Buckets_Get bName (Some bkt, None))
            (run_trace (@GetResources sampleExternals _ fakeNode "bar1" "app")
               missingSecretCluster)).
Proof.
  split.
  - apply (proj1 (@GetResources_partial_results sampleExternals cluster fakeNode
                    "bar1" "app" unavailableBucketCluster)
             "bucket1" (Some (sampleBucket false onlyS3), None)).
    + vm_compute. do 5 right; left; reflexivity.
    + reflexivity.
  - apply (proj2 (@GetResources_partial_results sampleExternals cluster fakeNode
                    "bar1" "app" missingSecretCluster)
             "app" "creds" None (notFound "secrets" "creds")).
    vm_compute. do 6 right; left; reflexivity.
Defined.

(** C10, as stated, fails on its last point: with a secret store that
    answers a failed Get the way a typed REST client does, the failed secret
    lookup leaves a non-nil secret in the results. *)
Lemma failed_secret_lookup_returns_non_nil_secret :
  exists bkt ba e,
    run_result (@GetResources sampleExternals _ restNode "bar1" "app") missingSecretCluster
    = Returns (Some bkt, Some ba, Some emptySecret, Some e)
    /\ In (Secrets_Get "app" "creds" (Some emptySecret, Some e))
          (run_trace (@GetResources sampleExternals _ restNode "bar1" "app")
             missingSecretCluster)
    /\ Some emptySecret <> None.
Proof.
  eexists _, _, _. split; [vm_compute; reflexivity|]. split.
  - vm_compute. do 6 right; left; reflexivity.
  - discriminate.
Qed.

Lemma getProtocol_witness :
  run_result (@getProtocol sampleExternals _ fakeNode (Some (sampleBucket true onlyS3)))
    healthyCluster
  = Returns (fst (encodeJSON (Some (ConnS3 sampleS3))), None)
  /\ run_result (@getProtocol sampleExternals _ fakeNode (Some (sampleBucket true allThree)))
       healthyCluster
     = Returns (fst (encodeJSON (Some (ConnS3 sampleS3))), None)
  /\ run_result (@getProtocol sampleExternals _ fakeNode (Some (sampleBucket true azureAndGCS)))
       healthyCluster
     = Returns (fst (encodeJSON (Some (ConnAzureBlob sampleAzure))), None)
  /\ run_result (@getProtocol sampleExternals _ fakeNode (Some (sampleBucket true onlyGCS)))
       healthyCluster
     = Returns (fst (encodeJSON (Some (ConnGCS sampleGCS))), None)
  /\ run_result (@getProtocol sampleExternals _ fakeNode (Some (sampleBucket true noProtocol)))
       healthyCluster
     = Returns ([], Some (Errorf ("unrecognized protocol " +:+ formatProtocol noProtocol
                                  +:+ ", unable to extract connection data"))).
Proof.
  split; [| split; [| split; [| split]]].
  - apply (proj1 (@getProtocol_first_populated_wins sampleExternals cluster fakeNode
                    (sampleBucket true onlyS3) healthyCluster) sampleS3);
      reflexivity.
  - apply (proj1 (@getProtocol_first_populated_wins sampleExternals cluster fakeNode
                    (sampleBucket true allThree) healthyCluster) sampleS3);
      reflexivity.
  - apply (proj1 (proj2 (@getProtocol_first_populated_wins sampleExternals cluster fakeNode
                           (sampleBucket true azureAndGCS) healthyCluster)) sampleAzure);
      reflexivity.
  - apply (proj1 (proj2 (proj2 (@getProtocol_first_populated_wins sampleExternals cluster
                                  fakeNode (sampleBucket true onlyGCS) healthyCluster)))
             sampleGCS);
      reflexivity.
  - apply (proj2 (proj2 (proj2 (@getProtocol_first_populated_wins sampleExternals cluster
                                  fakeNode (sampleBucket true noProtocol) healthyCluster))));
      reflexivity.
Defined.

Lemma parseVolumeContext_first_missing_witness :
  exists pre k post,
    requiredKeys = pre ++ k :: post
    /\ (forall k', In k' pre -> is_Some (podKeysMissing !! k'))
    /\ podKeysMissing !! k = None
    /\ run_result (parseVolumeContext podKeysMissing) tt
       = Returns (EmptyString, EmptyString, EmptyString, EmptyString,
                  Some (Errorf ("required volume context key unset: " +:+ k)))
    /\ keys_read (run_trace (parseVolumeContext podKeysMissing) tt) = pre ++ [k].
Proof.
  apply (@parseVolumeContext_first_missing unit podKeysMissing tt).
  exists podNamespaceKey. split.
  - simpl. tauto.
  - vm_compute. reflexivity.
Defined.

Lemma parseVolumeContext_empty_values_witness :
  run_result (parseVolumeContext allKeysEmpty) tt
  = Returns (EmptyString, EmptyString, EmptyString, EmptyString, None).
Proof.
  apply (proj2 (proj2 (@parseVolumeContext_succeeds_iff_keys_present unit allKeysEmpty tt))).
  intros k [<- | [<- | [<- | [<- | []]]]]; vm_compute; reflexivity.
Defined.

Lemma add_then_remove_finalizer_witness :
  exists ba2 err,
    run_result (@addThenRemove sampleExternals _ fakeNode
                  (sampleBA true "creds" ["keep"]) "cosi") healthyCluster
    = Returns (ba2, err)
    /\ GetFinalizers ba2 = ["keep"].
Proof.
  destruct (@add_then_remove_finalizer sampleExternals cluster fakeNode
              (sampleBA true "creds" ["keep"]) "cosi" healthyCluster)
    as (ba2 & err & Hrun & _ & Habsent & _).
  exists ba2, err. split; [exact Hrun|].
  apply Habsent. simpl. intros [Heq | []]. discriminate Heq.
Defined.

(** C7, as stated, fails: on a grant that already carries the marker, add
    changes nothing and remove takes the marker away. *)
Lemma add_then_remove_drops_marker_already_present :
  exists ba2 err,
    run_result (@addThenRemove sampleExternals _ fakeNode
                  (sampleBA true "creds" ["cosi"]) "cosi") healthyCluster
    = Returns (ba2, err)
    /\ GetFinalizers (sampleBA true "creds" ["cosi"]) = ["cosi"]
    /\ GetFinalizers ba2 = []
    /\ GetFinalizers ba2 <> GetFinalizers (sampleBA true "creds" ["cosi"]).
Proof.
  eexists _, _. split; [vm_compute; reflexivity|].
  repeat split; discriminate.
Qed.

(** C8, as stated, fails: the error for an unset required field carries
    neither the name nor the namespace of the access request. *)
Lemma unset_field_error_has_no_identifier :
  exists e,
    run_result (@getBAR sampleExternals _ fakeNode "bar1" "app") requestNameUnsetCluster
    = Returns (None, Some e)
    /\ Error e = "bucketAccessRequest.Spec.BucketRequestName unset"
    /\ contains "bar1" (Error e) = false
    /\ contains "app" (Error e) = false
    /\ ~ @names sampleExternals "bucketAccessRequest" "app/bar1" e.
Proof.
  eexists. split; [vm_compute; reflexivity|].
  repeat split; try (vm_compute; reflexivity).
  intros [_ Hid]. vm_compute in Hid. discriminate Hid.
Qed.

(** * Further properties of the client *)

Section Coverage.
Context `{Externals} {W : Type}.
Implicit Types (n : NodeClient W) (w : W).

(** X2. GetResources only reads: no run sends an update.  It makes at most
    four remote calls, and the first is always the access-request Get with the
    caller's namespace and name. *)
Theorem GetResources_reads_at_most_four n barName barNs w :
  List.filter is_update_call (run_trace (GetResources n barName barNs) w) = []
  /\ length (remote_calls (run_trace (GetResources n barName barNs) w)) <= 4
  /\ exists answer rest,
      remote_calls (run_trace (GetResources n barName barNs) w)
      = BucketAccessRequests_Get barNs barName answer :: rest.
Proof.
  unfold_client.
  repeat case_step;
    (split; [reflexivity | split; [simpl; lia | eexists _, _; reflexivity]]).
Qed.

(** X3. getBAR makes one remote call, the Get of the access request in the
    given namespace.  It returns exactly one of an object and an error.  It
    returns an object precisely when the store answered that object with no
    error, access is granted, and both the bucket-request name and the
    access-grant name are non-empty. *)
Theorem getBAR_accepts n barName barNs w :
  remote_calls (run_trace (getBAR n barName barNs) w)
  = [ BucketAccessRequests_Get barNs barName
        (fst (cosi_BucketAccessRequests_Get (cosiClient n) barNs barName w)) ]
  /\ ((exists bar, run_result (getBAR n barName barNs) w = Returns (Some bar, None))
      \/ (exists e, run_result (getBAR n barName barNs) w = Returns (None, Some e)))
  /\ forall bar,
      run_result (getBAR n barName barNs) w = Returns (Some bar, None)
      <-> fst (cosi_BucketAccessRequests_Get (cosiClient n) barNs barName w)
          = (Some bar, None)
          /\ BucketAccessRequest.AccessGranted (BucketAccessRequest.Status bar) = true
          /\ BucketAccessRequest.BucketRequestName (BucketAccessRequest.Spec bar) <> EmptyString
          /\ BucketAccessRequest.BucketAccessName (BucketAccessRequest.Status bar) <> EmptyString.
Proof.
  unfold_client.
  destruct (cosi_BucketAccessRequests_Get (cosiClient n) barNs barName w)
    as [[o e] w'] eqn:Hget; simpl.
  repeat case_step; flags;
    (split; [reflexivity | split; [eauto | ]]);
    intros bar'; split; intros Hr; simplify_eq; auto.
  all: destruct Hr as (Ha & Hb & Hc & Hd); simplify_eq; congruence.
Qed.

Ltac accepts Hget :=
  repeat case_step; flags;
  (split; [reflexivity | split; [eauto | ]]);
  let Hr := fresh "Hr" in
  intros ?; split; intros Hr; simplify_eq; auto;
  destruct Hr as (? & ? & ?); simplify_eq; congruence.

(** X4. getBA makes one remote call, the Get of the grant by name.  It
    returns exactly one of an object and an error, and it returns an object
    precisely when the store answered that object with no error, access is
    granted and the minted-secret name is non-empty. *)
Theorem getBA_accepts n baName w :
  remote_calls (run_trace (getBA n baName) w)
  = [ BucketAccesses_Get baName (fst (cosi_BucketAccesses_Get (cosiClient n) baName w)) ]
  /\ ((exists ba, run_result (getBA n baName) w = Returns (Some ba, None))
      \/ (exists e, run_result (getBA n baName) w = Returns (None, Some e)))
  /\ forall ba,
      run_result (getBA n baName) w = Returns (Some ba, None)
      <-> fst (cosi_BucketAccesses_Get (cosiClient n) baName w) = (Some ba, None)
          /\ BucketAccess.AccessGranted (BucketAccess.Status ba) = true
          /\ BucketAccess.MintedSecretName (BucketAccess.Spec ba) <> EmptyString.
Proof.
  unfold_client.
  destruct (cosi_BucketAccesses_Get (cosiClient n) baName w) as [[o e] w'] eqn:Hget; simpl.
  accepts Hget.
Qed.

(** X5. getBR makes one remote call, the Get of the bucket request in the
    given namespace (the name is the first argument, the namespace the
    second).  It returns exactly one of an object and an error, and it returns
    an object precisely when the store answered that object with no error,
    the bucket is available and the bucket name in the status is
    non-empty. *)
Theorem getBR_accepts n brName brNs w :
  remote_calls (run_trace (getBR n brName brNs) w)
  = [ BucketRequests_Get brNs brName
        (fst (cosi_BucketRequests_Get (cosiClient n) brNs brName w)) ]
  /\ ((exists br, run_result (getBR n brName brNs) w = Returns (Some br, None))
      \/ (exists e, run_result (getBR n brName brNs) w = Returns (None, Some e)))
  /\ forall br,
      run_result (getBR n brName brNs) w = Returns (Some br, None)
      <-> fst (cosi_BucketRequests_Get (cosiClient n) brNs brName w) = (Some br, None)
          /\ BucketRequest.BucketAvailable (BucketRequest.Status br) = true
          /\ BucketRequest.BucketName (BucketRequest.Status br) <> EmptyString.
Proof.
  unfold_client.
  destruct (cosi_BucketRequests_Get (cosiClient n) brNs brName w) as [[o e] w'] eqn:Hget; simpl.
  accepts Hget.
Qed.

(** X6. getB makes one remote call, the Get of the bucket by name.  It
    returns exactly one of an object and an error, and it returns an object
    precisely when the store answered that object with no error and the
    bucket is available; no field of the bucket is required to be set. *)
Theorem getB_accepts n bName w :
  remote_calls (run_trace (getB n bName) w)
  = [ Buckets_Get bName (fst (cosi_Buckets_Get (cosiClient n) bName w)) ]
  /\ ((exists bkt, run_result (getB n bName) w = Returns (Some bkt, None))
      \/ (exists e, run_result (getB n bName) w = Returns (None, Some e)))
  /\ forall bkt,
      run_result (getB n bName) w = Returns (Some bkt, None)
      <-> fst (cosi_Buckets_Get (cosiClient n) bName w) = (Some bkt, None)
          /\ Bucket.BucketAvailable (Bucket.Status bkt) = true.
Proof.
  unfold_client.
  destruct (cosi_Buckets_Get (cosiClient n) bName w) as [[o e] w'] eqn:Hget; simpl.
  repeat case_step; flags;
    (split; [reflexivity | split; [eauto | ]]);
    intros bkt'; split; intros Hr; simplify_eq; auto;
    destruct Hr as (? & ?); simplify_eq; congruence.
Qed.

(** X7. When GetResources returns no error, the grant and the bucket it
    returns are not nil, the grant is approved and names a secret, and the
    bucket is available. *)
Theorem GetResources_success_is_ready n barName barNs w bkt ba secret :
  run_result (GetResources n barName barNs) w = Returns (bkt, ba, secret, None) ->
  exists bkt_ ba_,
    bkt = Some bkt_ /\ ba = Some ba_
    /\ BucketAccess.AccessGranted (BucketAccess.Status ba_) = true
    /\ BucketAccess.MintedSecretName (BucketAccess.Spec ba_) <> EmptyString
    /\ Bucket.BucketAvailable (Bucket.Status bkt_) = true.
Proof.
  unfold_client.
  repeat case_step; intros Hr; simplify_eq; flags.
  eexists _, _. repeat split; assumption.
Qed.

(** X8. The lookups of a run are guarded by what was fetched before.  A
    grant is only looked up under the access-grant name of a granted access
    request whose two reference fields are non-empty; a bucket is only looked
    up under the bucket name of an approved grant that names a secret; a
    secret is only looked up in the caller's namespace, under the secret name
    of that grant, after an available bucket was fetched. *)
Theorem GetResources_lookups_are_guarded n barName barNs w :
  (forall name r,
      In (BucketAccesses_Get name r) (run_trace (GetResources n barName barNs) w) ->
      exists bar,
        In (BucketAccessRequests_Get barNs barName (Some bar, None))
           (run_trace (GetResources n barName barNs) w)
        /\ BucketAccessRequest.AccessGranted (BucketAccessRequest.Status bar) = true
        /\ BucketAccessRequest.BucketRequestName (BucketAccessRequest.Spec bar) <> EmptyString
        /\ name = BucketAccessRequest.BucketAccessName (BucketAccessRequest.Status bar)
        /\ name <> EmptyString)
  /\ (forall name r,
      In (Buckets_Get name r) (run_trace (GetResources n barName barNs) w) ->
      exists baName ba,
        In (BucketAccesses_Get baName (Some ba, None))
           (run_trace (GetResources n barName barNs) w)
        /\ BucketAccess.AccessGranted (BucketAccess.Status ba) = true
        /\ BucketAccess.MintedSecretName (BucketAccess.Spec ba) <> EmptyString
        /\ name = BucketAccess.BucketName (BucketAccess.Spec ba))
  /\ (forall ns name r,
      In (Secrets_Get ns name r) (run_trace (GetResources n barName barNs) w) ->
      exists baName ba bName bkt,
        In (BucketAccesses_Get baName (Some ba, None))
           (run_trace (GetResources n barName barNs) w)
        /\ In (Buckets_Get bName (Some bkt, None))
              (run_trace (GetResources n barName barNs) w)
        /\ Bucket.BucketAvailable (Bucket.Status bkt) = true
        /\ ns = barNs
        /\ name = BucketAccess.MintedSecretName (BucketAccess.Spec ba)).
Proof.
  split; [| split].
  - intros name r. unfold_client.
    repeat case_step; intros Hin; trace_cases Hin; flags;
      eexists; (split; [simpl; tauto | repeat split; assumption]).
  - intros name r. unfold_client.
    repeat case_step; intros Hin; trace_cases Hin; flags;
      eexists _, _; (split; [simpl; tauto | repeat split; assumption]).
  - intros ns name r. unfold_client.
    repeat case_step; intros Hin; trace_cases Hin; flags;
      eexists _, _, _, _;
      (split; [simpl; tauto | split; [simpl; tauto | repeat split; assumption]]).
Qed.

(** X9. The secret is not checked for nil.  When the secret store answers
    without an error, GetResources succeeds and returns the pointer the store
    answered, whatever it is, next to the grant and the bucket. *)
Theorem GetResources_returns_secret_unchecked n barName barNs w ns name secret :
  In (Secrets_Get ns name (secret, None)) (run_trace (GetResources n barName barNs) w) ->
  exists bkt ba,
    run_result (GetResources n barName barNs) w
    = Returns (Some bkt, Some ba, secret, None).
Proof.
  unfold_client.
  repeat case_step; intros Hin; trace_cases Hin; eexists _, _; reflexivity.
Qed.

Ltac protocol_cases :=
  repeat case_step;
  try match goal with
      | |- context [json_Marshal ?c] => destruct (json_Marshal c) as [? [?|]]; simpl
      end.

Lemma GetResources_success_bucket n barName barNs w bkt ba secret :
  run_result (GetResources n barName barNs) w = Returns (bkt, ba, secret, None) ->
  exists bkt_, bkt = Some bkt_.
Proof.
  unfold_client.
  repeat case_step; intros Hr; simplify_eq. eexists; reflexivity.
Qed.

(** X10. The bucket of a successful GetResources can be handed to
    getProtocol as it is: getProtocol does not hit a nil pointer on it, in
    whatever world it runs. *)
Theorem getProtocol_after_GetResources n barName barNs w bkt ba secret w' :
  run_result (GetResources n barName barNs) w = Returns (bkt, ba, secret, None) ->
  exists data err, run_result (getProtocol n bkt) w' = Returns (data, err).
Proof.
  intros Hr.
  destruct (GetResources_success_bucket _ _ _ _ _ _ _ Hr) as (b & ->). clear Hr.
  unfold_client. protocol_cases; eexists _, _; reflexivity.
Qed.

(** X11. getProtocol never returns data next to an error.  When the JSON
    encoder fails on the selected variant, getProtocol returns the encoder's
    error and nil data, whatever bytes the encoder handed back. *)
Theorem getProtocol_encoder_failure n (bkt : Bucket.t) w :
  let protocol := Bucket.Protocol (Bucket.Spec bkt) in
  (forall data e,
      run_result (getProtocol n (Some bkt)) w = Returns (data, Some e) -> data = [])
  /\ (forall s3 data e,
      Protocol.S3 protocol = Some s3 ->
      json_Marshal (Some (ConnS3 s3)) = (data, Some e) ->
      run_result (getProtocol n (Some bkt)) w = Returns ([], Some e))
  /\ (forall azure data e,
      Protocol.S3 protocol = None ->
      Protocol.AzureBlob protocol = Some azure ->
      json_Marshal (Some (ConnAzureBlob azure)) = (data, Some e) ->
      run_result (getProtocol n (Some bkt)) w = Returns ([], Some e))
  /\ (forall gcs data e,
      Protocol.S3 protocol = None ->
      Protocol.AzureBlob protocol = None ->
      Protocol.GCS protocol = Some gcs ->
      json_Marshal (Some (ConnGCS gcs)) = (data, Some e) ->
      run_result (getProtocol n (Some bkt)) w = Returns ([], Some e)).
Proof.
  intros protocol. subst protocol. unfold_client. split; [| split; [| split]].
  - intros data e. protocol_cases; intros Hr; now simplify_eq.
  - intros s3 data e Hs3 Hm. rewrite Hs3; simpl. now rewrite Hm.
  - intros azure data e Hs3 Haz Hm. rewrite Hs3, Haz; simpl. now rewrite Hm.
  - intros gcs data e Hs3 Haz Hgcs Hm. rewrite Hs3, Haz, Hgcs; simpl. now rewrite Hm.
Qed.

(** X12. getProtocol hits a nil pointer exactly when it is given a nil
    bucket.  It never calls the store and leaves the world as it was. *)
Theorem getProtocol_is_local n (bkt : option Bucket.t) w :
  (run_result (getProtocol n bkt) w = Panics <-> bkt = None)
  /\ remote_calls (run_trace (getProtocol n bkt) w) = []
  /\ world (snd (getProtocol n bkt (start w))) = w.
Proof.
  unfold_client. destruct bkt as [b|]; simpl.
  - protocol_cases; (split; [split; intros Hp; discriminate Hp | split; reflexivity]).
  - split; [split; reflexivity | split; reflexivity].
Qed.

(** The whole run of parseVolumeContext is a function of the four
    lookups. *)
Lemma parseVolumeContext_four_lookups (m1 m2 : gmap string string) (s : state W) :
  m1 !! barNameKey = m2 !! barNameKey ->
  m1 !! barNamespaceKey = m2 !! barNamespaceKey ->
  m1 !! podNameKey = m2 !! podNameKey ->
  m1 !! podNamespaceKey = m2 !! podNamespaceKey ->
  parseVolumeContext m1 s = parseVolumeContext m2 s.
Proof.
  intros E1 E2 E3 E4.
  unfold parseVolumeContext, parseValue. now rewrite E1, E2, E3, E4.
Qed.

(** X13. parseVolumeContext ignores every key but the four required ones:
    two volume contexts that agree on those four give the same results, the
    same error and the same reads. *)
Theorem parseVolumeContext_ignores_other_keys (m1 m2 : gmap string string) w :
  (forall k, In k requiredKeys -> m1 !! k = m2 !! k) ->
  run_result (parseVolumeContext m1) w = run_result (parseVolumeContext m2) w
  /\ run_trace (parseVolumeContext m1) w = run_trace (parseVolumeContext m2) w.
Proof.
  intros Hagree. unfold run_result, run_trace.
  rewrite (parseVolumeContext_four_lookups m1 m2);
    [split; reflexivity | apply Hagree; simpl; tauto ..].
Qed.

(** X14. Storing four values under the four required keys, in a context
    that may hold anything else, and parsing gives back the four values in
    the order access-request name, access-request namespace, pod name, pod
    namespace. *)
Theorem parseVolumeContext_reads_back (m : gmap string string)
    (barname barns podname podns : string) w :
  run_result
    (parseVolumeContext
       (<[barNameKey := barname]>
          (<[barNamespaceKey := barns]>
             (<[podNameKey := podname]>
                (<[podNamespaceKey := podns]> m))))) w
  = Returns (barname, barns, podname, podns, None).
Proof.
  assert (E1 : forall k v (m' : gmap string string), (<[k := v]> m') !! k = Some v)
    by (intros; apply lookup_insert_eq).
  assert (Hne : forall k k' v (m' : gmap string string),
             k <> k' -> (<[k := v]> m') !! k' = m' !! k')
    by (intros; now apply lookup_insert_ne).
  unfold run_result, parseVolumeContext, parseValue.
  rewrite E1.
  rewrite (Hne barNameKey barNamespaceKey), E1 by discriminate.
  rewrite (Hne barNameKey podNameKey), (Hne barNamespaceKey podNameKey), E1
    by discriminate.
  rewrite (Hne barNameKey podNamespaceKey), (Hne barNamespaceKey podNamespaceKey),
    (Hne podNameKey podNamespaceKey), E1 by discriminate.
  reflexivity.
Qed.

(** X15. parseVolumeContext calls no store and leaves the world as it was.
    The keys it reads are always an initial part of the four required keys in
    their fixed order, so no key is read twice and no other key is read; when
    it succeeds it has read all four. *)
Theorem parseVolumeContext_reads_in_order (volCtx : gmap string string) w :
  remote_calls (run_trace (parseVolumeContext volCtx) w) = []
  /\ world (snd (parseVolumeContext volCtx (start w))) = w
  /\ (exists rest,
        requiredKeys = keys_read (run_trace (parseVolumeContext volCtx) w) ++ rest)
  /\ (forall barname barns podname podns,
        run_result (parseVolumeContext volCtx) w
        = Returns (barname, barns, podname, podns, None) ->
        keys_read (run_trace (parseVolumeContext volCtx) w) = requiredKeys).
Proof.
  destruct (volCtx !! barNameKey) as [v1|] eqn:E1;
    [ destruct (volCtx !! barNamespaceKey) as [v2|] eqn:E2;
      [ destruct (volCtx !! podNameKey) as [v3|] eqn:E3;
        [ destruct (volCtx !! podNamespaceKey) as [v4|] eqn:E4 | ] | ] | ];
    unfold_client;
    repeat (first [rewrite E1 | rewrite E2 | rewrite E3 | rewrite E4]; simpl);
    (split; [reflexivity | split; [reflexivity | split]]);
    try (eexists; reflexivity);
    intros a b c d Hr; try discriminate Hr; reflexivity.
Qed.

(** *** Finalizers *)

Lemma NoDup_snoc (f : list string) (m : string) :
  List.NoDup f -> ~ In m f -> List.NoDup (f ++ [m]).
Proof.
  induction 1 as [|x f Hx Hf IH]; simpl; intros Hm.
  - constructor; [tauto | constructor].
  - constructor.
    + rewrite in_app_iff. simpl. intros [Hin | [Heq | []]]; [tauto | subst; tauto].
    + apply IH. tauto.
Qed.

Lemma In_cutFinalizer (f : list string) (m x : string) :
  In x (cutFinalizer f m) <-> In x f /\ x <> m.
Proof.
  induction f as [|e f IH]; simpl; [tauto|].
  destruct (String.eqb e m) eqn:Heq.
  - apply String.eqb_eq in Heq. subst e. rewrite IH. intuition congruence.
  - apply String.eqb_neq in Heq. simpl. rewrite IH. intuition congruence.
Qed.

Lemma NoDup_cutFinalizer (f : list string) (m : string) :
  List.NoDup f -> List.NoDup (cutFinalizer f m).
Proof.
  induction 1 as [|x f Hx Hf IH]; simpl; [constructor|].
  destruct (String.eqb x m); [assumption|].
  constructor; [| assumption].
  rewrite In_cutFinalizer. tauto.
Qed.

Lemma AddFinalizer_finalizers (ba : BucketAccess.t) (m : string) :
  GetFinalizers (AddFinalizer ba m)
  = if existsb (fun e => String.eqb e m) (GetFinalizers ba)
    then GetFinalizers ba else GetFinalizers ba ++ [m].
Proof.
  unfold AddFinalizer. now destruct (existsb _ (GetFinalizers ba)).
Qed.

(** X16. addBAFinalizer sends one update, carrying the grant as changed,
    even when the marker was already there, and returns the error of that
    update.  Whether or not the update fails, the grant the caller holds
    afterwards carries the marker, keeps its earlier finalizers in front and
    in order, has no duplicate if it had none, and has its name, spec and
    status untouched. *)
Theorem addBAFinalizer_effect n (ba : BucketAccess.t) (marker : string) w :
  exists ba1 answer,
    run_result (addBAFinalizer n ba marker) w = Returns (ba1, snd answer)
    /\ remote_calls (run_trace (addBAFinalizer n ba marker) w)
       = [BucketAccesses_Update ba1 answer]
    /\ (forall x, In x (GetFinalizers ba1) <-> x = marker \/ In x (GetFinalizers ba))
    /\ (exists rest, GetFinalizers ba1 = GetFinalizers ba ++ rest)
    /\ (List.NoDup (GetFinalizers ba) -> List.NoDup (GetFinalizers ba1))
    /\ Name (BucketAccess.Meta ba1) = Name (BucketAccess.Meta ba)
    /\ BucketAccess.Spec ba1 = BucketAccess.Spec ba
    /\ BucketAccess.Status ba1 = BucketAccess.Status ba.
Proof.
  unfold_client.
  destruct (cosi_BucketAccesses_Update (cosiClient n) (AddFinalizer ba marker) w)
    as [[r e] w1]; simpl.
  exists (AddFinalizer ba marker), (r, e).
  split; [reflexivity|]. split; [reflexivity|].
  rewrite AddFinalizer_finalizers.
  destruct (existsb _ (GetFinalizers ba)) eqn:Hex.
  - apply existsb_eqb_In in Hex.
    rewrite (AddFinalizer_present _ _ Hex).
    split; [intros x; split; [tauto | intros [-> | Hx]; assumption]|].
    split; [exists []; now rewrite app_nil_r|]. tauto.
  - assert (Hout : ~ In marker (GetFinalizers ba)).
    { intros Hin. apply existsb_eqb_In in Hin. congruence. }
    split; [intros x; rewrite in_app_iff; simpl; intuition congruence|].
    split; [eexists; reflexivity|].
    split; [intros Hnd; now apply NoDup_snoc|].
    unfold AddFinalizer. rewrite Hex. simpl. tauto.
Qed.

(** X17. removeBAFinalizer sends one update, carrying the grant as changed,
    even when the marker was not there, and returns the error of that
    update.  Whether or not the update fails, the grant the caller holds
    afterwards carries exactly the earlier finalizers other than the marker,
    has no duplicate if it had none, and has its name, spec and status
    untouched. *)
Theorem removeBAFinalizer_effect n (ba : BucketAccess.t) (marker : string) w :
  exists ba1 answer,
    run_result (removeBAFinalizer n ba marker) w = Returns (ba1, snd answer)
    /\ remote_calls (run_trace (removeBAFinalizer n ba marker) w)
       = [BucketAccesses_Update ba1 answer]
    /\ (forall x, In x (GetFinalizers ba1) <-> In x (GetFinalizers ba) /\ x <> marker)
    /\ (List.NoDup (GetFinalizers ba) -> List.NoDup (GetFinalizers ba1))
    /\ Name (BucketAccess.Meta ba1) = Name (BucketAccess.Meta ba)
    /\ BucketAccess.Spec ba1 = BucketAccess.Spec ba
    /\ BucketAccess.Status ba1 = BucketAccess.Status ba.
Proof.
  unfold_client.
  destruct (cosi_BucketAccesses_Update (cosiClient n) (RemoveFinalizer ba marker) w)
    as [[r e] w1]; simpl.
  exists (RemoveFinalizer ba marker), (r, e).
  split; [reflexivity|]. split; [reflexivity|].
  split; [intros x; apply In_cutFinalizer|].
  split; [apply NoDup_cutFinalizer|].
  simpl. tauto.
Qed.

(** X18. Adding a marker a second time changes nothing: on the grant that
    one addBAFinalizer left, another addBAFinalizer for the same marker
    returns that same grant (and still sends its update). *)
Theorem addBAFinalizer_again n (ba ba1 : BucketAccess.t) (marker : string) w e1 w' :
  run_result (addBAFinalizer n ba marker) w = Returns (ba1, e1) ->
  exists e2,
    run_result (addBAFinalizer n ba1 marker) w' = Returns (ba1, e2)
    /\ remote_calls (run_trace (addBAFinalizer n ba1 marker) w')
       = [BucketAccesses_Update ba1
            (fst (cosi_BucketAccesses_Update (cosiClient n) ba1 w'))].
Proof.
  unfold_client.
  destruct (cosi_BucketAccesses_Update (cosiClient n) (AddFinalizer ba marker) w)
    as [[r e] w1]; simpl.
  intros Hr. simplify_eq.
  assert (Hsame : AddFinalizer (AddFinalizer ba marker) marker = AddFinalizer ba marker).
  { apply AddFinalizer_present. rewrite AddFinalizer_finalizers.
    destruct (existsb _ (GetFinalizers ba)) eqn:Hex.
    - now apply existsb_eqb_In.
    - rewrite in_app_iff. simpl. tauto. }
  rewrite Hsame.
  destruct (cosi_BucketAccesses_Update (cosiClient n) (AddFinalizer ba marker) w')
    as [[r2 e2] w2]; simpl.
  eexists. split; reflexivity.
Qed.

(** X19. Removing a marker a second time changes nothing: on the grant that
    one removeBAFinalizer left, another removeBAFinalizer for the same marker
    leaves the finalizer list as it is. *)
Theorem removeBAFinalizer_again n (ba ba1 : BucketAccess.t) (marker : string) w e1 w' :
  run_result (removeBAFinalizer n ba marker) w = Returns (ba1, e1) ->
  exists ba2 e2,
    run_result (removeBAFinalizer n ba1 marker) w' = Returns (ba2, e2)
    /\ GetFinalizers ba2 = GetFinalizers ba1
    /\ ~ In marker (GetFinalizers ba2).
Proof.
  unfold_client.
  destruct (cosi_BucketAccesses_Update (cosiClient n) (RemoveFinalizer ba marker) w)
    as [[r e] w1]; simpl.
  intros Hr. simplify_eq.
  destruct (cosi_BucketAccesses_Update (cosiClient n)
              (RemoveFinalizer (RemoveFinalizer ba marker) marker) w')
    as [[r2 e2] w2]; simpl.
  eexists _, _. split; [reflexivity|].
  assert (Hcut : GetFinalizers (RemoveFinalizer (RemoveFinalizer ba marker) marker)
                 = GetFinalizers (RemoveFinalizer ba marker)).
  { unfold RemoveFinalizer at 1. unfold GetFinalizers at 1. simpl.
    apply cutFinalizer_absent. apply cutFinalizer_gone. }
  rewrite Hcut. split; [reflexivity|]. apply cutFinalizer_gone.
Qed.
End Coverage.

(** * The further properties at work on the sample cluster *)

Lemma GetResources_success_is_ready_witness :
  exists bkt_ ba_,
    Some (sampleBucket true onlyS3) = Some bkt_
    /\ Some (sampleBA true "creds" []) = Some ba_
    /\ BucketAccess.AccessGranted (BucketAccess.Status ba_) = true
    /\ BucketAccess.MintedSecretName (BucketAccess.Spec ba_) <> EmptyString
    /\ Bucket.BucketAvailable (Bucket.Status bkt_) = true.
Proof.
  apply (@GetResources_success_is_ready sampleExternals cluster fakeNode "bar1" "app"
           healthyCluster _ _ (Some sampleSecret)).
  vm_compute. reflexivity.
Defined.

Lemma GetResources_returns_secret_unchecked_witness :
  exists bkt ba,
    run_result (@GetResources sampleExternals _ fakeNode "bar1" "app") healthyCluster
    = Returns (Some bkt, Some ba, Some sampleSecret, None).
Proof.
  apply (@GetResources_returns_secret_unchecked sampleExternals cluster fakeNode
           "bar1" "app" healthyCluster "app" "creds" (Some sampleSecret)).
  vm_compute. do 6 right; left; reflexivity.
Defined.

Lemma getProtocol_after_GetResources_witness :
  exists data err,
    run_result (@getProtocol sampleExternals _ fakeNode (Some (sampleBucket true onlyS3)))
      missingSecretCluster
    = Returns (data, err).
Proof.
  apply (@getProtocol_after_GetResources sampleExternals cluster fakeNode "bar1" "app"
           healthyCluster (Some (sampleBucket true onlyS3))
           (Some (sampleBA true "creds" [])) (Some sampleSecret) missingSecretCluster).
  vm_compute. reflexivity.
Defined.

Lemma parseVolumeContext_ignores_other_keys_witness :
  run_result (parseVolumeContext podKeysMissing) tt
  = run_result (parseVolumeContext withExtraKey) tt
  /\ run_trace (parseVolumeContext podKeysMissing) tt
     = run_trace (parseVolumeContext withExtraKey) tt.
Proof.
  apply (@parseVolumeContext_ignores_other_keys unit podKeysMissing withExtraKey tt).
  intros k [<- | [<- | [<- | [<- | []]]]]; vm_compute; reflexivity.
Defined.

Lemma addBAFinalizer_again_witness :
  exists e2,
    run_result (@addBAFinalizer cluster fakeNode (sampleBA true "creds" ["cosi"]) "cosi")
      healthyCluster
    = Returns (sampleBA true "creds" ["cosi"], e2)
    /\ remote_calls
         (run_trace (@addBAFinalizer cluster fakeNode (sampleBA true "creds" ["cosi"]) "cosi")
            healthyCluster)
       = [BucketAccesses_Update (sampleBA true "creds" ["cosi"])
            (fst (cosi_BucketAccesses_Update (cosiClient fakeNode)
                    (sampleBA true "creds" ["cosi"]) healthyCluster))].
Proof.
  apply (@addBAFinalizer_again cluster fakeNode (sampleBA true "creds" [])
           (sampleBA true "creds" ["cosi"]) "cosi" healthyCluster None healthyCluster).
  vm_compute. reflexivity.
Defined.

Lemma removeBAFinalizer_again_witness :
  exists ba2 e2,
    run_result (@removeBAFinalizer cluster fakeNode (sampleBA true "creds" ["keep"]) "cosi")
      healthyCluster
    = Returns (ba2, e2)
    /\ GetFinalizers ba2 = GetFinalizers (sampleBA true "creds" ["keep"])
    /\ ~ In "cosi" (GetFinalizers ba2).
Proof.
  apply (@removeBAFinalizer_again cluster fakeNode (sampleBA true "creds" ["cosi"; "keep"])
           (sampleBA true "creds" ["keep"]) "cosi" healthyCluster None healthyCluster).
  vm_compute. reflexivity.
Defined.
